(** * Hugginface-proxy: the chat-completions handler

    A shallow embedding of the [POST /v1/chat/completions] handler of the
    extended server (alias table, model resolution, outbound payload, pass-through
    relay, simulated streaming) and of the minimal [server.js] handler, with
    the properties of the specification stated over them.

    JavaScript values are an inductive type, objects built by the handler are
    finite maps, and the handler runs in a small state-and-exception monad
    whose state is the clock and the trace of calls made on the network and
    on the Express response. *)

From Stdlib Require Import QArith.
From Stdlib Require Import Ascii String Numbers.DecimalString.
From stdpp Require Import gmap strings list fin_maps.

Local Open Scope Z_scope.
Set Warnings "-register-all".

(** ** JavaScript values *)

(** The values the handler manipulates: what [JSON.parse] produces, plus
    [undefined] (an absent property) and the built-in objects that a property
    read can reach through [Object.prototype].  A JSON number is kept as the
    rational its literal denotes; only its test against zero is used. *)
Inductive JsVal : Type :=
  | JUndefined
  | JNull
  | JBool (b : bool)
  | JNum (q : Q)
  | JStr (s : string)
  | JArr (items : list JsVal)
  | JObj (fields : list (string * JsVal))
  | JBuiltin (name : string).

(** ToBoolean: [undefined], [null], [false], [0] and the empty string are
    falsy, every object (array, function) is truthy. *)
Definition truthy (v : JsVal) : bool :=
  match v with
  | JUndefined | JNull => false
  | JBool b => b
  | JNum q => negb (Qeq_bool q 0)
  | JStr s => negb (String.eqb s "")
  | JArr _ | JObj _ | JBuiltin _ => true
  end.

(** [a || b] *)
Definition js_or (a b : JsVal) : JsVal := if truthy a then a else b.

(** [Array.isArray(v)] *)
Definition isArray (v : JsVal) : bool :=
  match v with JArr _ => true | _ => false end.

(** The names every object literal inherits from [Object.prototype]. *)
Definition Object_prototype : list string :=
  [ "constructor"; "__defineGetter__"; "__defineSetter__"; "hasOwnProperty";
    "__lookupGetter__"; "__lookupSetter__"; "isPrototypeOf";
    "propertyIsEnumerable"; "toString"; "valueOf"; "__proto__";
    "toLocaleString" ]%string.

(** The value found on the prototype chain when an object has no own
    property [k]. *)
Definition inherited (k : string) : JsVal :=
  if bool_decide (k ∈ Object_prototype) then JBuiltin k else JUndefined.

(** First binding of [k] in the fields of a parsed JSON object. *)
Fixpoint own_field (k : string) (fields : list (string * JsVal)) : option JsVal :=
  match fields with
  | [] => None
  | (k', v) :: rest => if String.eqb k k' then Some v else own_field k rest
  end.

(** An object literal: properties are set from left to right, a later one
    replacing an earlier one of the same name. *)
Definition js_object (props : list (string * JsVal)) : gmap string JsVal :=
  fold_left (fun o kv => <[kv.1 := kv.2]> o) props ∅.

(** The properties contributed by the spread [...(v && { k: v })]: the one
    property when [v] is truthy, nothing when [v] is a falsy primitive. *)
Definition and_spread (k : string) (v : JsVal) : list (string * JsVal) :=
  if truthy v then [(k, v)] else [].

(** ** Process configuration and the alias table *)

(** [process.env]: each variable is a string or unset. *)
Record Env : Type := {
  env_HF_TOKEN : option string;
  env_HF_MODEL : option string
}.

(** A variable is truthy when it is set to a non-empty string. *)
Definition env_truthy (v : option string) : bool :=
  match v with
  | Some s => negb (String.eqb s "")
  | None => false
  end.

(** [v || fallback] for a string that may be missing. *)
Definition or_string (v : option string) (fallback : string) : string :=
  match v with
  | Some s => if String.eqb s "" then fallback else s
  | None => fallback
  end.

Definition HF_TOKEN (env : Env) : option string := env_HF_TOKEN env.

(** [process.env.HF_MODEL || "meta-llama/Llama-3.1-8B-Instruct:fireworks-ai"] *)
Definition DEFAULT_MODEL (env : Env) : string :=
  or_string (env_HF_MODEL env) "meta-llama/Llama-3.1-8B-Instruct:fireworks-ai".

Definition AVAILABLE_MODELS : gmap string string :=
  list_to_map
    [ ("llama-3.1-8b", "meta-llama/Llama-3.1-8B-Instruct:fireworks-ai");
      ("llama-3.1-70b", "meta-llama/Llama-3.1-70B-Instruct:fireworks-ai");
      ("mixtral-8x7b", "mistralai/Mixtral-8x7B-Instruct-v0.1:fireworks-ai");
      ("qwen-2.5-72b", "Qwen/Qwen2.5-72B-Instruct:fireworks-ai");
      ("hermes-3", "NousResearch/Hermes-3-Llama-3.1-8B:fireworks-ai") ]%string.

(** [AVAILABLE_MODELS[model]]: the table is an object literal, so a name
    that is not one of its own keys is looked up on [Object.prototype]. *)
Definition AVAILABLE_MODELS_get (model : string) : JsVal :=
  match AVAILABLE_MODELS !! model with
  | Some id => JStr id
  | None => inherited model
  end.

(** ** The inbound request *)

(** The properties the handler destructures from [req.body]; an absent one
    is [JUndefined].  [model] is typed as the contract has it, an optional
    string: the coercion of other values to a property key is not
    modelled. *)
Record ChatRequest : Type := {
  messages : JsVal;
  temperature : JsVal;
  max_tokens : JsVal;
  stream : JsVal;
  model : option string;
  top_p : JsVal;
  frequency_penalty : JsVal;
  presence_penalty : JsVal
}.

(** [req.body] as the JSON middleware leaves it: the parsed body, or
    [undefined] when the request carried no body the middleware parses. *)
Inductive Body : Type :=
  | Unparsed
  | Parsed (req : ChatRequest).

(** [req.body?.messages] *)
Definition body_messages (body : Body) : JsVal :=
  match body with
  | Parsed req => messages req
  | Unparsed => JUndefined
  end.

(** [!messages || !Array.isArray(messages) || messages.length === 0] *)
Definition invalid_messages (m : JsVal) : bool :=
  negb (truthy m) || negb (isArray m) ||
  match m with JArr items => Nat.eqb (length items) 0 | _ => false end.

(** [let selectedModel = DEFAULT_MODEL;
     if (model) { selectedModel = AVAILABLE_MODELS[model] || model; }] *)
Definition selectedModel (env : Env) (req : ChatRequest) : JsVal :=
  match model req with
  | Some m =>
      if truthy (JStr m) then js_or (AVAILABLE_MODELS_get m) (JStr m)
      else JStr (DEFAULT_MODEL env)
  | None => JStr (DEFAULT_MODEL env)
  end.

(** The outbound payload. *)
Definition requestBody (env : Env) (req : ChatRequest) : gmap string JsVal :=
  js_object
    ([ ("model", selectedModel env req);
       ("messages", messages req);
       ("temperature", js_or (temperature req) (JNum (7 # 10)));
       ("max_tokens", js_or (max_tokens req) (JNum 1000));
       ("stream", js_or (stream req) (JBool false)) ]%string
     ++ and_spread "top_p" (top_p req)
     ++ and_spread "frequency_penalty" (frequency_penalty req)
     ++ and_spread "presence_penalty" (presence_penalty req)).

(** ** Strings *)

Definition LF : string := String "010"%char "".

(** [s.includes(sub)] *)
Fixpoint includes (s sub : string) : bool :=
  String.prefix sub s ||
  match s with
  | EmptyString => false
  | String _ rest => includes rest sub
  end.

(** [s.split(sep)] for a one-character separator: the pieces between the
    occurrences of [sep], empty pieces included; never the empty list. *)
Fixpoint split (sep : ascii) (s : string) : list string :=
  match s with
  | EmptyString => [EmptyString]
  | String c rest =>
      if Ascii.eqb c sep then EmptyString :: split sep rest
      else match split sep rest with
           | w :: ws => String c w :: ws
           | [] => [String c EmptyString]
           end
  end.

(** [pieces.join(sep)] *)
Fixpoint join (sep : string) (pieces : list string) : string :=
  match pieces with
  | [] => ""
  | [w] => w
  | w :: ws => w +:+ sep +:+ join sep ws
  end.

(** Decimal rendering of an integer inside a template literal. *)
Definition string_of_Z (z : Z) : string := NilZero.string_of_int (Z.to_int z).
Definition string_of_nat (n : nat) : string := string_of_Z (Z.of_nat n).

(** ** Results and the upstream reply *)

(** A computation either returns or throws an [Error] with a message. *)
Inductive Result (A : Type) : Type :=
  | Ok (a : A)
  | Throw (message : string).
Arguments Ok {A} a.
Arguments Throw {A} message.

(** How the byte stream [response.body] finishes: an 'end' event, an
    'error' event, or neither. *)
Inductive BodyEnding : Type :=
  | Ended
  | Errored (message : string)
  | Pending.

(** What node-fetch hands back for the upstream reply. *)
Record Response : Type := {
  status : Z;
  content_type : option string;
  text : Result string;
  json : Result JsVal;
  body_data : list string;
  body_ending : BodyEnding
}.

(** [response.ok]: a status in 200..299. *)
Definition ok (r : Response) : bool := (200 <=? status r) && (status r <=? 299).

(** The options of the one outbound call. *)
Record FetchInit : Type := {
  method : string;
  authorization : string;
  header_content_type : string;
  body : gmap string JsVal
}.

(** What is written to the client connection: bytes as they are, or one
    record [data: <JSON.stringify(json)>\n\n]. *)
Inductive Wire : Type :=
  | Raw (bytes : string)
  | SseData (json : JsVal).

Definition DONE : Wire := Raw ("data: [DONE]" +:+ LF +:+ LF).

(** The calls the handler makes on the network, the timer and the Express
    response, in the order it makes them. *)
Inductive Call : Type :=
  | Fetch (url : string) (init : FetchInit)
  | Res_status (code : Z)
  | Res_json (payload : JsVal)
  | Res_setHeader (name value : string)
  | Res_write (data : Wire)
  | Res_end
  | SetTimeout (ms : Z).

(** The outside world of one request: the upstream's answer to the call and
    the value of [Date.now()] at its n-th reading.  Every promise the
    handlers await is taken to have settled, fulfilled or rejected: the one
    of [fetch] here, those of [response.json()] and [response.text()] in
    [Response]; an upstream that never answers is outside the model. *)
Record World : Type := {
  fetch : string -> FetchInit -> Result Response;
  Date_now : nat -> Z
}.

(** ** The handler monad *)

Record State : Type := {
  clock_reads : nat;
  calls : list Call
}.

Definition M (A : Type) : Type := State -> Result A * State.

Definition ret {A} (a : A) : M A := fun st => (Ok a, st).

Definition bind {A B} (m : M A) (k : A -> M B) : M B :=
  fun st =>
    match m st with
    | (Ok a, st') => k a st'
    | (Throw e, st') => (Throw e, st')
    end.

(** [throw new Error(message)] *)
Definition throw {A} (message : string) : M A := fun st => (Throw message, st).

(** [try { m } catch (err) { handler(err.message) }]: the calls already made
    stay made. *)
Definition try_catch {A} (m : M A) (handler : string -> M A) : M A :=
  fun st =>
    match m st with
    | (Ok a, st') => (Ok a, st')
    | (Throw e, st') => handler e st'
    end.

(** [await p] for a promise that has settled as [r]. *)
Definition await {A} (r : Result A) : M A := fun st => (r, st).

Definition call (c : Call) : M unit :=
  fun st => (Ok tt, {| clock_reads := clock_reads st; calls := calls st ++ [c] |}).

Definition date_now (w : World) : M Z :=
  fun st => (Ok (Date_now w (clock_reads st)),
             {| clock_reads := S (clock_reads st); calls := calls st |}).

Notation "'let*' x ':=' m 'in' k" := (bind m (fun x => k))
  (at level 10, x name, m at level 100, k at level 200).
Notation "m1 '>>' m2" := (bind m1 (fun _ => m2))
  (at level 90, right associativity).

(** [const { messages, ... } = req.body;]: destructuring [undefined] throws a
    TypeError that names the first property read. *)
Definition destructure (body : Body) : M ChatRequest :=
  match body with
  | Parsed req => ret req
  | Unparsed =>
      throw "Cannot destructure property 'messages' of 'req.body' as it is undefined."
  end.

(** ** Property reads *)

(** [v.name], for the names the handler reads ([choices], [message],
    [content]): reading a property of [undefined] or [null] throws a
    TypeError; a parsed object answers with its own property or an inherited
    one; arrays, strings, numbers and booleans have no own property of such
    a name. *)
Definition get (v : JsVal) (name : string) : M JsVal :=
  match v with
  | JUndefined =>
      throw ("Cannot read properties of undefined (reading '" +:+ name +:+ "')")
  | JNull =>
      throw ("Cannot read properties of null (reading '" +:+ name +:+ "')")
  | JObj fields =>
      ret (match own_field name fields with
           | Some x => x
           | None => inherited name
           end)
  | _ => ret (inherited name)
  end.

(** [v?.name] *)
Definition get_opt (v : JsVal) (name : string) : M JsVal :=
  match v with
  | JUndefined | JNull => ret JUndefined
  | _ => get v name
  end.

(** [v[0]] *)
Definition get_0 (v : JsVal) : M JsVal :=
  match v with
  | JUndefined => throw "Cannot read properties of undefined (reading '0')"
  | JNull => throw "Cannot read properties of null (reading '0')"
  | JArr items => ret (match items with x :: _ => x | [] => JUndefined end)
  | JStr s =>
      ret (match s with
           | String c _ => JStr (String c "")
           | EmptyString => JUndefined
           end)
  | JObj fields =>
      ret (match own_field "0" fields with Some x => x | None => JUndefined end)
  | _ => ret JUndefined
  end.

(** [content.split(' ')]: only a string has a [split] method. *)
Definition call_split (content : JsVal) : M (list string) :=
  match content with
  | JStr s => ret (split " " s)
  | JUndefined => throw "Cannot read properties of undefined (reading 'split')"
  | JNull => throw "Cannot read properties of null (reading 'split')"
  | _ => throw "content.split is not a function"
  end.

(** ** The streaming adapter *)

(** The chunk object literal shared by the simulated loop and the error
    fallback. *)
Definition chunk_object (id : string) (created : Z) (model : JsVal)
    (delta finish_reason : JsVal) : JsVal :=
  JObj [ ("id", JStr id);
         ("object", JStr "chat.completion.chunk");
         ("created", JNum (inject_Z created));
         ("model", model);
         ("choices", JArr [ JObj [ ("index", JNum 0);
                                   ("delta", delta);
                                   ("finish_reason", finish_reason) ] ]) ]%string.

(** The body of [for (let i = 0; i < words.length; i++)], run on the words
    from index [i] on; [isLast] is [i === words.length - 1]. *)
Fixpoint emit_words (w : World) (model : JsVal) (i : nat) (words : list string)
    : M unit :=
  match words with
  | [] => ret tt
  | word :: rest =>
      let isLast := match rest with [] => true | _ :: _ => false end in
      let* t_id := date_now w in
      let* t_created := date_now w in
      let chunk :=
        chunk_object
          ("simulated-" +:+ string_of_Z t_id +:+ "-" +:+ string_of_nat i)
          (t_created / 1000) model
          (if isLast then JObj []
           else JObj [("content"%string,
                       JStr (if Nat.eqb i 0 then word else " " +:+ word))])
          (if isLast then JStr "stop" else JNull) in
      call (Res_write (SseData chunk)) >>
      (if isLast then ret tt else call (SetTimeout 80)) >>
      emit_words w model (S i) rest
  end.

(** [const data = await response.json();
     const content = data.choices[0]?.message?.content || "Sin respuesta";
     const words = content.split(' ');] *)
Definition answer_words (response : Response) : M (list string) :=
  let* data := await (json response) in
  let* choices := get data "choices" in
  let* first := get_0 choices in
  let* message := get_opt first "message" in
  let* answer := get_opt message "content" in
  let content := js_or answer (JStr "Sin respuesta") in
  call_split content.

(** Simulated streaming: the upstream answered with one JSON document. *)
Definition simulate (w : World) (model : JsVal) (response : Response) : M unit :=
  let* words := answer_words response in
  emit_words w model 0 words >>
  call (Res_write DONE) >>
  call Res_end.

Fixpoint relay_data (chunks : list string) : M unit :=
  match chunks with
  | [] => ret tt
  | chunk :: rest => call (Res_write (Raw chunk)) >> relay_data rest
  end.

(** Pass-through: the listeners registered on [response.body], run on the
    events the stream delivers ('data' events, then 'end' or 'error'). *)
Definition relay (response : Response) : M unit :=
  relay_data (body_data response) >>
  match body_ending response with
  | Ended => call Res_end
  | Errored _ => call Res_end
  | Pending => ret tt
  end.

(** The [catch (streamError)] fallback. *)
Definition stream_fallback (w : World) (model : JsVal) (message : string) : M unit :=
  let* t_id := date_now w in
  let* t_created := date_now w in
  let errorChunk :=
    chunk_object ("error-" +:+ string_of_Z t_id) (t_created / 1000) model
      (JObj [("content"%string, JStr ("Error: " +:+ message))])
      (JStr "error") in
  call (Res_write (SseData errorChunk)) >>
  call (Res_write DONE) >>
  call Res_end.

(** [const contentType = response.headers.get('content-type') || '';
     contentType.includes('text/plain') || contentType.includes('text/event-stream')] *)
Definition is_live (response : Response) : bool :=
  let contentType := or_string (content_type response) "" in
  includes contentType "text/plain" || includes contentType "text/event-stream".

Definition streaming (w : World) (model : JsVal) (response : Response) : M unit :=
  call (Res_setHeader "Content-Type" "text/plain; charset=utf-8") >>
  call (Res_setHeader "Cache-Control" "no-cache") >>
  call (Res_setHeader "Connection" "keep-alive") >>
  call (Res_setHeader "Access-Control-Allow-Origin" "*") >>
  try_catch
    (if is_live response then relay response
     else simulate w model response)
    (stream_fallback w model).

(** ** The handlers *)

Definition HF_URL : string := "https://router.huggingface.co/v1/chat/completions".

Definition do_fetch (w : World) (url : string) (init : FetchInit) : M Response :=
  call (Fetch url init) >> await (fetch w url init).

Definition bearer (token : option string) : string :=
  "Bearer " +:+ match token with Some t => t | None => "undefined"%string end.

(** The options of the call: POST, the bearer credential, a JSON body. *)
Definition fetch_options (env : Env) (payload : gmap string JsVal) : FetchInit :=
  {| method := "POST";
     authorization := bearer (HF_TOKEN env);
     header_content_type := "application/json";
     body := payload |}.

(** The body answered for a non-2xx upstream reply. *)
Definition failure_body (code : Z) (error : string) : JsVal :=
  JObj [ ("error", JStr "Error desde Hugging Face");
         ("details", JStr error);
         ("status", JNum (inject_Z code)) ]%string.

Definition upstream_failure (response : Response) : M unit :=
  let* error := await (text response) in
  call (Res_status (status response)) >>
  call (Res_json (failure_body (status response) error)).

Definition server_error (message : string) : M unit :=
  call (Res_status 500) >>
  call (Res_json (JObj [ ("error", JStr "Error en el servidor");
                         ("details", JStr message) ]%string)).

(** What the extended handler does with the upstream reply. *)
Definition respond (env : Env) (w : World) (req : ChatRequest)
    (response : Response) : M unit :=
  if negb (ok response) then upstream_failure response
  else if truthy (stream req) then
    streaming w (selectedModel env req) response
  else
    let* data := await (json response) in
    call (Res_json data).

(** The [try] block of the extended handler, after the destructuring of
    [req.body]. *)
Definition chat_guarded (env : Env) (w : World) (req : ChatRequest) : M unit :=
  if negb (env_truthy (HF_TOKEN env)) then
    call (Res_status 401) >>
    call (Res_json (JObj [ ("error", JStr "Token de Hugging Face no encontrado");
                           ("details", JStr "Configura HF_TOKEN en tu .env") ]%string))
  else if invalid_messages (messages req) then
    call (Res_status 400) >>
    call (Res_json (JObj [ ("error", JStr "Mensajes requeridos");
                           ("details",
                            JStr "El campo 'messages' debe ser un array no vacío") ]%string))
  else
    let* response :=
      do_fetch w HF_URL (fetch_options env (requestBody env req)) in
    respond env w req response.

(** [app.post("/v1/chat/completions", ...)] of the extended server, on
    [req.body] as it arrives: the destructuring is the first statement of the
    [try] block. *)
Definition post_chat_completions (env : Env) (w : World) (body : Body) : M unit :=
  try_catch
    (let* req := destructure body in
     chat_guarded env w req)
    server_error.

(** The same handler on a request whose body was parsed. *)
Definition chat_completions (env : Env) (w : World) (req : ChatRequest) : M unit :=
  post_chat_completions env w (Parsed req).

(** The payload of the minimal server: the configured model, no alias
    table, no optional sampling parameters. *)
Definition basic_body (env : Env) (req : ChatRequest) : gmap string JsVal :=
  js_object
    [ ("model", JStr (DEFAULT_MODEL env));
      ("messages", messages req);
      ("temperature", js_or (temperature req) (JNum (7 # 10)));
      ("max_tokens", js_or (max_tokens req) (JNum 1000));
      ("stream", js_or (stream req) (JBool false)) ]%string.

(** The [try] block of the handler of [server.js], after the destructuring
    of [req.body]. *)
Definition basic_guarded (env : Env) (w : World) (req : ChatRequest) : M unit :=
  if negb (env_truthy (HF_TOKEN env)) then
    call (Res_status 401) >>
    call (Res_json
            (JObj [ ("error", JStr "Token de Hugging Face no encontrado");
                    ("details",
                     JStr "Asegúrate de que HF_TOKEN esté configurado en tu .env") ]%string))
  else
    let* response :=
      do_fetch w HF_URL (fetch_options env (basic_body env req)) in
    if negb (ok response) then upstream_failure response
    else
      let* data := await (json response) in
      call (Res_json data).

(** [app.post("/v1/chat/completions", ...)] of [server.js], on [req.body] as
    it arrives. *)
Definition basic_post_chat_completions (env : Env) (w : World) (body : Body)
    : M unit :=
  try_catch
    (let* req := destructure body in
     basic_guarded env w req)
    server_error.

(** The same handler on a request whose body was parsed. *)
Definition basic_chat_completions (env : Env) (w : World) (req : ChatRequest)
    : M unit :=
  basic_post_chat_completions env w (Parsed req).

Arguments requestBody : simpl never.
Arguments basic_body : simpl never.

(** ** Running a handler and what the client sees *)

Definition run (handler : M unit) : list Call :=
  calls (handler {| clock_reads := 0; calls := [] |}).2.

(** The outbound calls of a trace. *)
Definition network_calls (trace : list Call) : list (string * FetchInit) :=
  omap (fun c => match c with Fetch url init => Some (url, init) | _ => None end)
       trace.

(** The Express response as the client observes it: the status code (200
    until [res.status] changes it), the JSON body it receives from
    [res.json] (none with a status that carries no body), the data written,
    and whether the response has been ended.  Nothing reaches the client
    after the end. *)
Record Reply : Type := {
  statusCode : Z;
  sent : option JsVal;
  written : list Wire;
  ended : bool
}.

(** The status codes with which no body reaches the client, whatever is
    handed to [res.json]: Node sends none with an informational status, with
    204 and with 304, and Express empties it at 205. *)
Definition bodyless (code : Z) : bool :=
  ((100 <=? code) && (code <=? 199))
  || (code =? 204) || (code =? 205) || (code =? 304).

Definition express_step (r : Reply) (c : Call) : Reply :=
  if ended r then r
  else match c with
       | Res_status code =>
           {| statusCode := code; sent := sent r; written := written r;
              ended := false |}
       | Res_json payload =>
           {| statusCode := statusCode r;
              sent := if bodyless (statusCode r) then None else Some payload;
              written := written r; ended := true |}
       | Res_write data =>
           {| statusCode := statusCode r; sent := sent r;
              written := written r ++ [data]; ended := false |}
       | Res_end =>
           {| statusCode := statusCode r; sent := sent r;
              written := written r; ended := true |}
       | Fetch _ _ | Res_setHeader _ _ | SetTimeout _ => r
       end.

Definition reply (trace : list Call) : Reply :=
  fold_left express_step trace
    {| statusCode := 200; sent := None; written := []; ended := false |}.

(** The data written by a trace, in order. *)
Definition writes_of (trace : list Call) : list Wire :=
  omap (fun c => match c with Res_write d => Some d | _ => None end) trace.

(** ** Reading a chunk as a client does *)

(** [v.name] on a parsed value, without the throw. *)
Definition field (name : string) (v : JsVal) : JsVal :=
  match v with
  | JObj fields =>
      match own_field name fields with Some x => x | None => JUndefined end
  | _ => JUndefined
  end.

(** [chunk.choices[0]] of a written record. *)
Definition first_choice (d : Wire) : JsVal :=
  match d with
  | SseData chunk =>
      match field "choices" chunk with
      | JArr (c :: _) => c
      | _ => JUndefined
      end
  | Raw _ => JUndefined
  end.

Definition delta (d : Wire) : JsVal := field "delta" (first_choice d).

Definition delta_content (d : Wire) : option string :=
  match field "content" (delta d) with
  | JStr s => Some s
  | _ => None
  end.

Definition finish_reason (d : Wire) : option string :=
  match field "finish_reason" (first_choice d) with
  | JStr s => Some s
  | _ => None
  end.

(** The words of the upstream's answer, or the message of the fault met
    while reading it. *)
Definition answer (response : Response) : Result (list string) :=
  (answer_words response {| clock_reads := 0; calls := [] |}).1.

(** A terminal chunk is one whose [finish_reason] is set. *)
Definition terminal (d : Wire) : bool :=
  match finish_reason d with Some _ => true | None => false end.

(** The text a client reassembles from the content deltas. *)
Definition reassemble (ws : list Wire) : string :=
  foldr String.append "" (omap delta_content ws).

(** ** Predicates and traces used in the statements *)

(** Calls that neither set the status nor end the response. *)
Definition open_call (c : Call) : Prop :=
  match c with
  | Res_status _ | Res_json _ | Res_end => False
  | _ => True
  end.

(** The calls of the word loop: chunk writes and pacing timers only. *)
Definition pacing_call (c : Call) : Prop :=
  match c with
  | Res_write (SseData _) | SetTimeout 80 => True
  | _ => False
  end.

(** The separator that precedes the first word emitted from index [i]. *)
Definition lead (i : nat) (words : list string) : string :=
  match words with
  | _ :: _ :: _ => if Nat.eqb i 0 then "" else " "
  | _ => ""
  end.

(** A computation that touches neither the clock nor the trace. *)
Definition stateless {A} (m : M A) : Prop := exists r, forall st, m st = (r, st).

(** A computation that only adds calls to the trace, none of them to the
    network. *)
Definition offline {A} (m : M A) : Prop :=
  forall st, exists tr,
    calls (m st).2 = calls st ++ tr /\ network_calls tr = [].

Definition local_call (c : Call) : bool :=
  match c with Fetch _ _ => false | _ => true end.

Definition started (c : Call) : State :=
  {| clock_reads := 0; calls := [c] |}.

Definition stream_headers : list Call :=
  [ Res_setHeader "Content-Type" "text/plain; charset=utf-8";
    Res_setHeader "Cache-Control" "no-cache";
    Res_setHeader "Connection" "keep-alive";
    Res_setHeader "Access-Control-Allow-Origin" "*" ].

(** The calls that close the relay, by how the upstream stream finishes. *)
Definition relay_closing (ending : BodyEnding) : list Call :=
  match ending with
  | Ended | Errored _ => [Res_end]
  | Pending => []
  end.


Definition invalid_request_trace : list Call :=
  [ Res_status 400;
    Res_json (JObj [ ("error", JStr "Mensajes requeridos");
                     ("details",
                      JStr "El campo 'messages' debe ser un array no vacío") ]%string) ].

(** ** Sample inputs *)

Definition configured : Env :=
  {| env_HF_TOKEN := Some "hf_secret"%string; env_HF_MODEL := None |}.

Definition unconfigured : Env :=
  {| env_HF_TOKEN := None; env_HF_MODEL := None |}.

Definition hi_there : JsVal :=
  JArr [ JObj [ ("role", JStr "user"); ("content", JStr "Hi there") ]%string ].

(** A request with the given messages, [stream] flag and model, and no
    sampling parameter. *)
Definition request_of (msgs : JsVal) (flag : JsVal) (name : option string)
    : ChatRequest :=
  {| messages := msgs; temperature := JUndefined; max_tokens := JUndefined;
     stream := flag; model := name; top_p := JUndefined;
     frequency_penalty := JUndefined; presence_penalty := JUndefined |}.

(** An upstream reply that is one JSON document. *)
Definition json_reply (code : Z) (raw : string) (data : JsVal) : Response :=
  {| status := code; content_type := Some "application/json"%string;
     text := Ok raw; json := Ok data; body_data := [raw]; body_ending := Ended |}.

(** An upstream reply that is a live event stream of the given chunks. *)
Definition live_reply (chunks : list string) (ending : BodyEnding) : Response :=
  {| status := 200; content_type := Some "text/event-stream"%string;
     text := Ok (foldr String.append "" chunks);
     json := Throw "invalid json response body";
     body_data := chunks; body_ending := ending |}.

(** A world whose upstream always answers [response]. *)
Definition world_of (response : Response) : World :=
  {| fetch := fun _ _ => Ok response;
     Date_now := fun n => 1700000000000 + Z.of_nat n |}.

(** The complete, non-streaming body [{choices: [{message: {content}}]}]. *)
Definition completion (content : string) : JsVal :=
  JObj [ ("choices",
          JArr [ JObj [ ("message",
                         JObj [ ("content", JStr content) ]) ] ]) ]%string.

Definition hello_friend : JsVal := completion "Hello friend".

(** ** The other endpoints *)

(** [Object.entries(AVAILABLE_MODELS)]: the properties of the table in the
    order the object literal lists them. *)
Definition AVAILABLE_MODELS_entries : list (string * string) :=
  [ ("llama-3.1-8b", "meta-llama/Llama-3.1-8B-Instruct:fireworks-ai");
    ("llama-3.1-70b", "meta-llama/Llama-3.1-70B-Instruct:fireworks-ai");
    ("mixtral-8x7b", "mistralai/Mixtral-8x7B-Instruct-v0.1:fireworks-ai");
    ("qwen-2.5-72b", "Qwen/Qwen2.5-72B-Instruct:fireworks-ai");
    ("hermes-3", "NousResearch/Hermes-3-Llama-3.1-8B:fireworks-ai") ]%string.

(** The callback of [Object.entries(AVAILABLE_MODELS).map(([name, id]) => ...)]
    run over the entries: each entry reads the clock once. *)
Fixpoint model_entries (w : World) (entries : list (string * string))
    : M (list JsVal) :=
  match entries with
  | [] => ret []
  | (name, id) :: rest =>
      let* t_created := date_now w in
      let entry :=
        JObj [ ("id", JStr name);
               ("object", JStr "model");
               ("created", JNum (inject_Z (t_created / 1000)));
               ("owned_by", JStr "huggingface");
               ("permission", JArr []);
               ("root", JStr name);
               ("parent", JNull);
               ("full_model_id", JStr id) ]%string in
      let* more := model_entries w rest in
      ret (entry :: more)
  end.

(** [app.get("/v1/models", ...)] *)
Definition list_models (w : World) : M unit :=
  let* models := model_entries w AVAILABLE_MODELS_entries in
  call (Res_json (JObj [ ("object", JStr "list");
                         ("data", JArr models) ]%string)).

(** [app.get("/stats", ...)] *)
Definition stats (env : Env) : M unit :=
  call (Res_json
          (JObj [ ("modelsAvailable",
                   JObj (map (fun kv => (kv.1, JStr kv.2))
                             AVAILABLE_MODELS_entries));
                  ("defaultModel", JStr (DEFAULT_MODEL env));
                  ("rateLimit", JStr "100 requests per 15 minutes");
                  ("features",
                   JArr [ JStr "Streaming support";
                          JStr "Multiple models";
                          JStr "Request logging";
                          JStr "Rate limiting";
                          JStr "Health monitoring" ]) ]%string)).

(** [app.get("/health", ...)] of [server.js]; [hasToken] is [!!HF_TOKEN]. *)
Definition basic_health (env : Env) : M unit :=
  call (Res_json (JObj [ ("status", JStr "ok");
                         ("model", JStr (DEFAULT_MODEL env));
                         ("hasToken", JBool (env_truthy (HF_TOKEN env))) ]%string)).

(** The callback of [chunks.map((chunk, index) => ...)] in
    [createStreamResponse], run on the chunks from index [index] on. *)
Fixpoint stream_records (env : Env) (w : World) (index : nat)
    (chunks : list string) : M (list Wire) :=
  match chunks with
  | [] => ret []
  | chunk :: rest =>
      let isLast := match rest with [] => true | _ :: _ => false end in
      let* t_id := date_now w in
      let* t_created := date_now w in
      let data :=
        chunk_object
          ("stream-" +:+ string_of_Z t_id +:+ "-" +:+ string_of_nat index)
          (t_created / 1000) (JStr (DEFAULT_MODEL env))
          (if isLast then JObj []
           else JObj [("content"%string, JStr (chunk +:+ " "))])
          (if isLast then JStr "stop" else JNull) in
      let* more := stream_records env w (S index) rest in
      ret (SseData data :: more)
  end.

(** [createStreamResponse(content)] for a string [content]. *)
Definition createStreamResponse (env : Env) (w : World) (content : string)
    : M (list Wire) :=
  stream_records env w 0 (split " " content).

(** ** More predicates used in the statements *)

(** [sub] occurs in [s]. *)
Definition occurs_in (sub s : string) : Prop :=
  exists before after, s = before +:+ sub +:+ after.

(** Chunk writes with one pacing timer between two successive ones. *)
Fixpoint paced (chunks : list Wire) : list Call :=
  match chunks with
  | [] => []
  | [c] => [Res_write c]
  | c :: rest => Res_write c :: SetTimeout 80 :: paced rest
  end.

(** The timers of a trace, in milliseconds. *)
Definition timers_of (trace : list Call) : list Z :=
  omap (fun c => match c with SetTimeout ms => Some ms | _ => None end) trace.

(** The names a payload of the extended handler may hold. *)
Definition payload_names : list string :=
  [ "model"; "messages"; "temperature"; "max_tokens"; "stream";
    "top_p"; "frequency_penalty"; "presence_penalty" ]%string.

(** The trace of the outermost [catch]. *)
Definition server_error_trace (message : string) : list Call :=
  [ Res_status 500;
    Res_json (JObj [ ("error", JStr "Error en el servidor");
                     ("details", JStr message) ]%string) ].

(** A chunk of the completion-chunk shape, for the given model. *)
Definition well_formed_chunk (model : JsVal) (chunk : JsVal) : Prop :=
  field "object" chunk = JStr "chat.completion.chunk"
  /\ field "model" chunk = model
  /\ exists choice,
       field "choices" chunk = JArr [choice]
       /\ field "index" choice = JNum 0.

(** The payloads handed to [res.json], in call order. *)
Definition json_calls (trace : list Call) : list JsVal :=
  omap (fun c => match c with Res_json payload => Some payload | _ => None end)
       trace.

(** Calls that leave the status and the JSON body of the response alone. *)
Definition in_band (c : Call) : Prop :=
  match c with
  | Res_status _ | Res_json _ => False
  | _ => True
  end.

(** * Properties *)

(** ** The handlers on a parsed body *)

(** On a parsed body the destructuring succeeds and the guards run. *)
Lemma chat_completions_parsed (env : Env) (w : World) (req : ChatRequest) :
  chat_completions env w req = try_catch (chat_guarded env w req) server_error.
Proof. reflexivity. Qed.

Lemma basic_chat_completions_parsed (env : Env) (w : World) (req : ChatRequest) :
  basic_chat_completions env w req
  = try_catch (basic_guarded env w req) server_error.
Proof. reflexivity. Qed.

(** On a body that was not parsed the destructuring throws, and the
    outermost [catch] answers. *)
Lemma unparsed_trace (env : Env) (w : World) :
  run (post_chat_completions env w Unparsed)
  = server_error_trace
      "Cannot destructure property 'messages' of 'req.body' as it is undefined.".
Proof. reflexivity. Qed.

Lemma basic_unparsed_trace (env : Env) (w : World) :
  run (basic_post_chat_completions env w Unparsed)
  = server_error_trace
      "Cannot destructure property 'messages' of 'req.body' as it is undefined.".
Proof. reflexivity. Qed.

(** ** Splitting and joining *)

Lemma split_nonempty (sep : ascii) (s : string) : split sep s <> [].
Proof.
  destruct s as [|c rest]; simpl; [discriminate|].
  destruct (Ascii.eqb c sep); [discriminate|].
  destruct (split sep rest); discriminate.
Qed.

Lemma append_cons (c : ascii) (a b : string) :
  String c a +:+ b = String c (a +:+ b).
Proof. reflexivity. Qed.

Lemma join_cons_char (sep : string) (c : ascii) (w : string) (ws : list string) :
  join sep (String c w :: ws) = String c (join sep (w :: ws)).
Proof. destruct ws; reflexivity. Qed.

(** Joining the pieces of a split with the separator gives the string back:
    what the word loop would reproduce if it emitted every word. *)
Lemma join_split (sep : ascii) (s : string) :
  join (String sep "") (split sep s) = s.
Proof.
  induction s as [|c rest IH]; simpl; [reflexivity|].
  destruct (Ascii.eqb_spec c sep) as [->|Hne].
  - pose proof (split_nonempty sep rest) as Hn.
    destruct (split sep rest) as [|w ws] eqn:E; [contradiction|].
    change (join (String sep "") ("" :: w :: ws))
      with ("" +:+ String sep "" +:+ join (String sep "") (w :: ws)).
    rewrite IH. reflexivity.
  - pose proof (split_nonempty sep rest) as Hn.
    destruct (split sep rest) as [|w ws] eqn:E; [contradiction|].
    rewrite join_cons_char. now rewrite IH.
Qed.

Lemma append_nil_r (a : string) : a +:+ "" = a.
Proof.
  induction a as [|x a IH]; [reflexivity|].
  rewrite append_cons. now rewrite IH.
Qed.

(** ** What the Express response shows of a trace *)

Lemma express_open (trace : list Call) :
  forall r, ended r = false -> Forall open_call trace ->
  fold_left express_step trace r
  = {| statusCode := statusCode r; sent := sent r;
       written := written r ++ writes_of trace; ended := false |}.
Proof.
  induction trace as [|c trace IH]; intros [code body ws fin] Hr Hall;
    simpl in Hr; subst fin.
  - simpl. now rewrite app_nil_r.
  - inversion Hall as [|? ? Hc Hrest]; subst.
    destruct c; simpl in Hc; try contradiction;
      cbn [fold_left express_step ended];
      (rewrite IH; [|reflexivity|assumption]); cbn;
      rewrite <- ?List.app_assoc; reflexivity.
Qed.

Lemma network_calls_app (t1 t2 : list Call) :
  network_calls (t1 ++ t2) = network_calls t1 ++ network_calls t2.
Proof. unfold network_calls. apply omap_app. Qed.

Lemma writes_of_app (t1 t2 : list Call) :
  writes_of (t1 ++ t2) = writes_of t1 ++ writes_of t2.
Proof. unfold writes_of. apply omap_app. Qed.

(** The response after a prefix of calls that neither set the status nor
    end it. *)
Lemma reply_open_app (pre post : list Call) :
  Forall open_call pre ->
  reply (pre ++ post)
  = fold_left express_step post
      {| statusCode := 200; sent := None; written := writes_of pre;
         ended := false |}.
Proof.
  intros Hpre. unfold reply. rewrite fold_left_app.
  rewrite (express_open pre) by (reflexivity || assumption). reflexivity.
Qed.

Lemma writes_of_relayed (chunks : list string) :
  writes_of (map (fun c => Res_write (Raw c)) chunks) = map Raw chunks.
Proof.
  induction chunks as [|c chunks IH]; [reflexivity|].
  cbn. f_equal. exact IH.
Qed.

Lemma relayed_open (chunks : list string) :
  Forall open_call (map (fun c => Res_write (Raw c)) chunks).
Proof.
  induction chunks as [|c chunks IH]; cbn; [constructor|].
  constructor; [exact I|exact IH].
Qed.

(** ** Steps of the handler monad *)

Lemma bind_call {B} (c : Call) (k : M B) (st : State) :
  (call c >> k) st
  = k {| clock_reads := clock_reads st; calls := calls st ++ [c] |}.
Proof. reflexivity. Qed.

Lemma relay_data_run (chunks : list string) :
  forall st, relay_data chunks st
  = (Ok tt, {| clock_reads := clock_reads st;
               calls := calls st ++ map (fun c => Res_write (Raw c)) chunks |}).
Proof.
  induction chunks as [|c chunks IH]; intros [n tr].
  - cbn. now rewrite app_nil_r.
  - cbn [relay_data]. unfold bind, call. cbn [clock_reads calls].
    rewrite IH. cbn. now rewrite <- List.app_assoc.
Qed.

(** ** Reading the answer *)

Lemma stateless_ret {A} (a : A) : stateless (ret a).
Proof. now exists (Ok a). Qed.

Lemma stateless_throw {A} (e : string) : stateless (@throw A e).
Proof. now exists (Throw e). Qed.

Lemma stateless_await {A} (r : Result A) : stateless (await r).
Proof. now exists r. Qed.

Lemma stateless_bind {A B} (m : M A) (k : A -> M B) :
  stateless m -> (forall a, stateless (k a)) -> stateless (bind m k).
Proof.
  intros [r Hm] Hk. destruct r as [a|e].
  - destruct (Hk a) as [r' Hr']. exists r'. intros st. unfold bind.
    now rewrite Hm, Hr'.
  - exists (Throw e). intros st. unfold bind. now rewrite Hm.
Qed.

Lemma stateless_get (v : JsVal) (name : string) : stateless (get v name).
Proof. destruct v; simpl; auto using stateless_ret, stateless_throw. Qed.

Lemma stateless_get_opt (v : JsVal) (name : string) : stateless (get_opt v name).
Proof. destruct v; simpl; auto using stateless_ret, stateless_throw. Qed.

Lemma stateless_get_0 (v : JsVal) : stateless (get_0 v).
Proof. destruct v; simpl; auto using stateless_ret, stateless_throw. Qed.

Lemma stateless_call_split (v : JsVal) : stateless (call_split v).
Proof. destruct v; simpl; auto using stateless_ret, stateless_throw. Qed.

Lemma stateless_answer_words (response : Response) :
  stateless (answer_words response).
Proof.
  unfold answer_words.
  repeat (apply stateless_bind; [|intros ?]);
    auto using stateless_await, stateless_get, stateless_get_opt,
               stateless_get_0, stateless_call_split.
Qed.

(** A string always splits into at least one word. *)
Lemma answer_words_nonempty (response : Response) (st st' : State)
    (words : list string) :
  answer_words response st = (Ok words, st') -> words <> [].
Proof.
  unfold answer_words, bind, await.
  destruct (json response) as [data|]; [|discriminate].
  destruct (get data "choices" st) as [[choices|] s1]; [|discriminate].
  destruct (get_0 choices s1) as [[first|] s2]; [|discriminate].
  destruct (get_opt first "message" s2) as [[message|] s3]; [|discriminate].
  destruct (get_opt message "content" s3) as [[answer|] s4]; [|discriminate].
  destruct (js_or answer (JStr "Sin respuesta")); simpl; try discriminate.
  unfold ret. intros [= <- _]. apply split_nonempty.
Qed.

Lemma answer_words_run (response : Response) (st : State) :
  answer_words response st = (answer response, st).
Proof.
  destruct (stateless_answer_words response) as [r Hr].
  unfold answer. now rewrite !Hr.
Qed.

(** ** The word loop *)

Lemma pacing_open (trace : list Call) :
  Forall pacing_call trace -> Forall open_call trace.
Proof.
  intros H. eapply Forall_impl; [exact H|].
  intros c; destruct c; simpl; auto.
Qed.

Lemma reassemble_cons (d : Wire) (s : string) (ws : list Wire) :
  delta_content d = Some s -> reassemble (d :: ws) = s +:+ reassemble ws.
Proof. unfold reassemble. simpl. intros ->. reflexivity. Qed.

Lemma reassemble_snoc_empty (ws : list Wire) (d : Wire) :
  delta_content d = None -> reassemble (ws ++ [d]) = reassemble ws.
Proof.
  unfold reassemble. intros H. rewrite omap_app. simpl. rewrite H.
  now rewrite app_nil_r.
Qed.

(** The loop never throws; from a non-empty word list it writes one content
    chunk for every word but the last, then, as its last call, one chunk with
    an empty delta and [finish_reason] "stop"; the content deltas spell the
    words without the last one. *)
Lemma emit_words_spec (w : World) (model : JsVal) (words : list string) :
  words <> [] ->
  forall i st, exists before last,
    emit_words w model i words st
    = (Ok tt, {| clock_reads := (clock_reads st + 2 * length words)%nat;
                 calls := calls st ++ before ++ [Res_write last] |})
    /\ Forall pacing_call (before ++ [Res_write last])
    /\ length (writes_of before) = pred (length words)
    /\ Forall (fun d => finish_reason d = None /\ is_Some (delta_content d))
         (writes_of before)
    /\ finish_reason last = Some "stop"%string
    /\ delta last = JObj []
    /\ reassemble (writes_of before)
       = lead i words +:+ join " " (removelast words).
Proof.
  induction words as [|word rest IH]; intros Hne i st; [contradiction|].
  destruct rest as [|word2 rest].
  - eexists [], _. cbn [emit_words]. unfold bind, date_now, call, ret. cbn.
    split; [|split; [|split; [|split; [|split; [|split]]]]].
    + f_equal. f_equal. lia.
    + repeat constructor.
    + reflexivity.
    + constructor.
    + reflexivity.
    + reflexivity.
    + reflexivity.
  - destruct (IH ltac:(discriminate) (S i)
                {| clock_reads := S (S (clock_reads st));
                   calls := (calls st ++ [Res_write (SseData
                     (chunk_object
                        ("simulated-" +:+ string_of_Z (Date_now w (clock_reads st))
                         +:+ "-" +:+ string_of_nat i)
                        (Date_now w (S (clock_reads st)) / 1000) model
                        (JObj [("content"%string,
                                JStr (if Nat.eqb i 0 then word else " " +:+ word))])
                        JNull))]) ++ [SetTimeout 80] |})
      as (before & last & Hrun & Hpace & Hlen & Hall & Hfin & Hdelta & Hre).
    eexists (_ :: _ :: before), last.
    split; [|split; [|split; [|split; [|split; [|split]]]]].
    + change (emit_words w model i (word :: word2 :: rest) st)
        with ((let* t_id := date_now w in
               let* t_created := date_now w in
               call (Res_write (SseData
                 (chunk_object
                    ("simulated-" +:+ string_of_Z t_id +:+ "-" +:+ string_of_nat i)
                    (t_created / 1000) model
                    (JObj [("content"%string,
                            JStr (if Nat.eqb i 0 then word else " " +:+ word))])
                    JNull))) >>
               call (SetTimeout 80) >>
               emit_words w model (S i) (word2 :: rest)) st).
      unfold bind at 1 2 3 4. unfold date_now, call. cbn [fst snd clock_reads calls].
      rewrite Hrun. cbn [clock_reads calls length].
      f_equal. f_equal; [lia|]. rewrite <- !List.app_assoc. reflexivity.
    + constructor; [exact I|]. constructor; [exact I|]. exact Hpace.
    + change (S (length (writes_of before)) = S (length rest)).
      now rewrite Hlen.
    + constructor; [|exact Hall]. split; [reflexivity|]. cbn. eauto.
    + exact Hfin.
    + exact Hdelta.
    + match goal with
      | |- reassemble (writes_of (Res_write ?d :: _ :: before)) = _ =>
          change (reassemble (d :: writes_of before)
                  = lead i (word :: word2 :: rest)
                    +:+ join " " (removelast (word :: word2 :: rest)))
      end.
      erewrite reassemble_cons by reflexivity. rewrite Hre.
      change (removelast (word :: word2 :: rest))
        with (word :: removelast (word2 :: rest)).
      destruct rest as [|word3 rest].
      * cbn. destruct (Nat.eqb i 0); cbn; now rewrite ?append_nil_r.
      * change (removelast (word2 :: word3 :: rest))
          with (word2 :: removelast (word3 :: rest)).
        change (lead (S i) (word2 :: word3 :: rest)) with " "%string.
        change (lead i (word :: word2 :: word3 :: rest))
          with (if Nat.eqb i 0 then ""%string else " "%string).
        change (join " " (word :: word2 :: removelast (word3 :: rest)))
          with (word +:+ " " +:+ join " " (word2 :: removelast (word3 :: rest))).
        destruct (Nat.eqb i 0); cbn [String.append]; reflexivity.
Qed.

(** The simulated branch with its fallback: content chunks, then exactly one
    chunk that carries a [finish_reason], then the sentinel, then the end of
    the response. *)
Lemma simulate_outcome (w : World) (model : JsVal) (response : Response)
    (st : State) :
  exists before last st',
    try_catch (simulate w model response) (stream_fallback w model) st
    = (Ok tt, st')
    /\ calls st' = calls st ++ before ++ [Res_write last; Res_write DONE; Res_end]
    /\ Forall pacing_call (before ++ [Res_write last])
    /\ Forall (fun d => finish_reason d = None /\ is_Some (delta_content d))
         (writes_of before)
    /\ match answer response with
       | Ok words =>
           length (writes_of before) = pred (length words)
           /\ finish_reason last = Some "stop"%string
           /\ delta last = JObj []
           /\ reassemble (writes_of before) = join " " (removelast words)
       | Throw e =>
           before = []
           /\ finish_reason last = Some "error"%string
           /\ delta_content last = Some ("Error: " +:+ e)
       end.
Proof.
  unfold try_catch, simulate. unfold bind at 1.
  rewrite answer_words_run.
  pose proof (answer_words_run response st) as Hans.
  destruct (answer response) as [words|e].
  - apply answer_words_nonempty in Hans.
    destruct (emit_words_spec w model words Hans 0 st)
      as (before & last & Hrun & Hpace & Hlen & Hall & Hfin & Hdelta & Hre).
    exists before, last. eexists.
    unfold bind. rewrite Hrun. unfold call. cbn [fst snd clock_reads calls].
    split; [reflexivity|]. cbn [calls].
    split; [now rewrite <- !List.app_assoc|].
    split; [exact Hpace|]. split; [exact Hall|].
    split; [exact Hlen|]. split; [exact Hfin|]. split; [exact Hdelta|].
    rewrite Hre. unfold lead. destruct words as [|? [|? ?]]; reflexivity.
  - exists []. eexists. eexists.
    unfold stream_fallback, bind, date_now, call. cbn [fst snd clock_reads calls].
    split; [reflexivity|]. cbn [calls].
    split; [now rewrite <- !List.app_assoc|].
    split; [repeat constructor|]. split; [constructor|].
    split; [reflexivity|]. split; reflexivity.
Qed.

Lemma filter_nonterminal (ws : list Wire) :
  Forall (fun d => terminal d = false) ws -> List.filter terminal ws = [].
Proof.
  induction 1 as [|d ws Hd _ IH]; [reflexivity|].
  cbn. now rewrite Hd.
Qed.

Lemma terminal_of_finish_reason (d : Wire) (reason : string) :
  finish_reason d = Some reason -> terminal d = true.
Proof. unfold terminal. now intros ->. Qed.

Lemma simulated_reply (head before : list Call) (last : Wire) :
  Forall open_call head ->
  Forall pacing_call (before ++ [Res_write last]) ->
  writes_of head = [] ->
  written (reply (head ++ before ++ [Res_write last; Res_write DONE; Res_end]))
  = writes_of before ++ [last; DONE]
  /\ ended (reply (head ++ before ++ [Res_write last; Res_write DONE; Res_end]))
     = true.
Proof.
  intros Hhead Hpace Hnone.
  replace (head ++ before ++ [Res_write last; Res_write DONE; Res_end])
    with ((head ++ (before ++ [Res_write last]) ++ [Res_write DONE]) ++ [Res_end])
    by (rewrite <- !List.app_assoc; reflexivity).
  rewrite reply_open_app.
  - rewrite !writes_of_app, Hnone. cbn. rewrite <- List.app_assoc.
    split; reflexivity.
  - apply Forall_app. split; [exact Hhead|].
    apply Forall_app. split; [now apply pacing_open|repeat constructor].
Qed.

(** ** No second outbound call *)

Lemma offline_ret {A} (a : A) : offline (ret a).
Proof. intros st. exists []. cbn. now rewrite app_nil_r. Qed.

Lemma offline_stateless {A} (m : M A) : stateless m -> offline m.
Proof.
  intros [r Hr] st. exists []. rewrite Hr. cbn. now rewrite app_nil_r.
Qed.

Lemma offline_date_now (w : World) : offline (date_now w).
Proof. intros st. exists []. cbn. now rewrite app_nil_r. Qed.

Lemma offline_call (c : Call) : local_call c = true -> offline (call c).
Proof.
  intros Hc st. exists [c]. split; [reflexivity|].
  destruct c; try discriminate; reflexivity.
Qed.

Lemma offline_bind {A B} (m : M A) (k : A -> M B) :
  offline m -> (forall a, offline (k a)) -> offline (bind m k).
Proof.
  intros Hm Hk st. unfold bind.
  destruct (Hm st) as (tr1 & E1 & N1).
  destruct (m st) as [[a|e] st1]; cbn [snd] in *.
  - destruct (Hk a st1) as (tr2 & E2 & N2).
    exists (tr1 ++ tr2). rewrite E2, E1, network_calls_app, N1, N2.
    now rewrite <- List.app_assoc.
  - exists tr1. now split.
Qed.

Lemma offline_try_catch {A} (m : M A) (handler : string -> M A) :
  offline m -> (forall e, offline (handler e)) -> offline (try_catch m handler).
Proof.
  intros Hm Hh st. unfold try_catch.
  destruct (Hm st) as (tr1 & E1 & N1).
  destruct (m st) as [[a|e] st1]; cbn [snd] in *.
  - exists tr1. now split.
  - destruct (Hh e st1) as (tr2 & E2 & N2).
    exists (tr1 ++ tr2). rewrite E2, E1, network_calls_app, N1, N2.
    now rewrite <- List.app_assoc.
Qed.

Create HintDb offline.
#[local] Hint Resolve offline_ret offline_date_now offline_bind offline_try_catch
  : offline.
#[local] Hint Extern 1 (offline (call _)) =>
  (apply offline_call; reflexivity) : offline.
#[local] Hint Extern 1 (offline (await _)) =>
  (apply offline_stateless, stateless_await) : offline.
#[local] Hint Extern 1 (offline (answer_words _)) =>
  (apply offline_stateless, stateless_answer_words) : offline.

Lemma offline_emit_words (w : World) (model : JsVal) (words : list string) :
  forall i, offline (emit_words w model i words).
Proof.
  induction words as [|word rest IH]; intros i; cbn [emit_words];
    [auto with offline|].
  apply offline_bind; [auto with offline|]; intros t_id.
  apply offline_bind; [auto with offline|]; intros t_created.
  apply offline_bind; [auto with offline|]; intros _.
  apply offline_bind; [destruct rest; auto with offline|]; intros _.
  apply IH.
Qed.

Lemma offline_relay_data (chunks : list string) : offline (relay_data chunks).
Proof.
  induction chunks as [|c chunks IH]; cbn [relay_data]; auto with offline.
Qed.

Lemma offline_respond (env : Env) (w : World) (req : ChatRequest)
    (response : Response) :
  offline (respond env w req response).
Proof.
  unfold respond, upstream_failure, streaming, relay, simulate, stream_fallback.
  destruct (negb (ok response)); [auto 10 with offline|].
  destruct (truthy (stream req)); [|auto 10 with offline].
  repeat (apply offline_bind; [auto with offline|]; intros _).
  apply offline_try_catch.
  - destruct (is_live response).
    + apply offline_bind; [apply offline_relay_data|]; intros _.
      destruct (body_ending response); auto with offline.
    + apply offline_bind; [auto with offline|]; intros words.
      apply offline_bind; [apply offline_emit_words|]; intros _.
      auto with offline.
  - intros e. auto 10 with offline.
Qed.

Lemma offline_server_error (e : string) : offline (server_error e).
Proof. unfold server_error. auto with offline. Qed.

(** ** Validation *)

(** The handler's test on [messages] rejects exactly a value that is not an
    array (a missing one included) or an array of length zero. *)
Lemma invalid_messages_spec (m : JsVal) :
  invalid_messages m = true
  <-> m = JUndefined \/ isArray m = false \/ m = JArr [].
Proof.
  split.
  - destruct m as [| | | | |items| |]; cbn; auto.
    destruct items; cbn; [auto|discriminate].
  - intros [->|[H| ->]]; [reflexivity| |reflexivity].
    unfold invalid_messages. rewrite H. cbn [negb].
    now rewrite orb_true_r.
Qed.







(** C7, as stated, fails twice over: with no credential configured a request
    without [messages] is answered 401, and with a credential a request
    whose body was not parsed (so without [messages]) is answered 500; in
    neither case 400. *)
Lemma invalid_messages_not_always_400 :
  ~ (forall (env : Env) (w : World) (req : ChatRequest),
       messages req = JUndefined \/ isArray (messages req) = false
         \/ messages req = JArr [] ->
       statusCode (reply (run (chat_completions env w req))) = 400
       /\ network_calls (run (chat_completions env w req)) = [])
  /\ ~ (forall (env : Env) (w : World) (body : Body),
          env_truthy (HF_TOKEN env) = true ->
          body_messages body = JUndefined
            \/ isArray (body_messages body) = false
            \/ body_messages body = JArr [] ->
          statusCode (reply (run (post_chat_completions env w body))) = 400).
Proof.
  split; intros H.
  - destruct (H unconfigured (world_of (json_reply 200 "{}" (JObj [])))
                (request_of JUndefined JUndefined None)) as [Hstatus _].
    + left; reflexivity.
    + vm_compute in Hstatus. discriminate.
  - specialize (H configured (world_of (json_reply 200 "{}" (JObj [])))
                  Unparsed eq_refl (or_introl eq_refl)).
    vm_compute in H. discriminate.
Qed.

(** C7, amended. While a credential is configured, every request whose body
    was parsed and whose [messages] is missing, not an array or an empty
    array is answered 400 with the InvalidRequest body, and the trace holds
    no outbound call. *)
Theorem invalid_messages_rejected (env : Env) (w : World) (req : ChatRequest) :
  env_truthy (HF_TOKEN env) = true ->
  messages req = JUndefined \/ isArray (messages req) = false
    \/ messages req = JArr [] ->
  run (post_chat_completions env w (Parsed req))
  = [ Res_status 400;
      Res_json (JObj [ ("error", JStr "Mensajes requeridos");
                       ("details",
                        JStr "El campo 'messages' debe ser un array no vacío")
                     ]%string) ]
  /\ statusCode (reply (run (post_chat_completions env w (Parsed req)))) = 400
  /\ sent (reply (run (post_chat_completions env w (Parsed req))))
     = Some (JObj [ ("error", JStr "Mensajes requeridos");
                    ("details",
                     JStr "El campo 'messages' debe ser un array no vacío")
                  ]%string)
  /\ network_calls (run (post_chat_completions env w (Parsed req))) = [].
Proof.
  intros Htoken Hmessages. apply invalid_messages_spec in Hmessages.
  assert (run (post_chat_completions env w (Parsed req)) = invalid_request_trace)
    as E.
  { change (post_chat_completions env w (Parsed req))
      with (chat_completions env w req).
    rewrite chat_completions_parsed. unfold run, chat_guarded.
    rewrite Htoken, Hmessages. reflexivity. }
  rewrite E. repeat split; reflexivity.
Qed.

(** A string in place of the [messages] array, with a token: the answer is
    400. *)
Lemma invalid_messages_rejected_witness :
  statusCode (reply (run (post_chat_completions configured
     (world_of (json_reply 200 "{}" (JObj [])))
     (Parsed (request_of (JStr "hello") JUndefined None))))) = 400
  /\ network_calls (run (post_chat_completions configured
       (world_of (json_reply 200 "{}" (JObj [])))
       (Parsed (request_of (JStr "hello") JUndefined None)))) = [].
Proof.
  destruct (invalid_messages_rejected configured
              (world_of (json_reply 200 "{}" (JObj [])))
              (request_of (JStr "hello") JUndefined None)
              eq_refl (or_intror (or_introl eq_refl)))
    as (_ & Hstatus & _ & Hcalls).
  split; [exact Hstatus|exact Hcalls].
Defined.

(** ** Model resolution *)

(** The keys of the alias table and their values. *)
Lemma AVAILABLE_MODELS_keys (m id : string) :
  AVAILABLE_MODELS !! m = Some id ->
  (m, id) ∈
    [ ("llama-3.1-8b", "meta-llama/Llama-3.1-8B-Instruct:fireworks-ai");
      ("llama-3.1-70b", "meta-llama/Llama-3.1-70B-Instruct:fireworks-ai");
      ("mixtral-8x7b", "mistralai/Mixtral-8x7B-Instruct-v0.1:fireworks-ai");
      ("qwen-2.5-72b", "Qwen/Qwen2.5-72B-Instruct:fireworks-ai");
      ("hermes-3", "NousResearch/Hermes-3-Llama-3.1-8B:fireworks-ai") ]%string.
Proof. unfold AVAILABLE_MODELS. apply elem_of_list_to_map_2. Qed.

(** A key of the alias table resolves to the value the table maps it to. *)
Lemma selectedModel_alias (env : Env) (req : ChatRequest) (m id : string) :
  model req = Some m -> AVAILABLE_MODELS !! m = Some id ->
  selectedModel env req = JStr id.
Proof.
  intros Hm Hid. unfold selectedModel, AVAILABLE_MODELS_get. rewrite Hm, Hid.
  apply AVAILABLE_MODELS_keys in Hid.
  repeat (apply elem_of_cons in Hid as [[= -> ->]|Hid]; [reflexivity|]).
  now apply elem_of_nil in Hid.
Qed.

(** An omitted model resolves to the configured default. *)
Lemma selectedModel_default (env : Env) (req : ChatRequest) :
  model req = None -> selectedModel env req = JStr (DEFAULT_MODEL env).
Proof. intros Hm. unfold selectedModel. now rewrite Hm. Qed.

(** A non-empty name that is neither a key of the table nor a name inherited
    from [Object.prototype] is passed through unchanged. *)
Lemma selectedModel_passthrough (env : Env) (req : ChatRequest) (m : string) :
  model req = Some m -> m <> ""%string ->
  AVAILABLE_MODELS !! m = None -> m ∉ Object_prototype ->
  selectedModel env req = JStr m.
Proof.
  intros Hm Hne Hnone Hproto.
  unfold selectedModel, AVAILABLE_MODELS_get, inherited. rewrite Hm, Hnone.
  rewrite bool_decide_eq_false_2 by assumption.
  cbn. destruct (String.eqb_spec m ""); [contradiction|reflexivity].
Qed.

(** C5, at the failing input. The name "toString" is a non-empty string
    that is not a key of the alias table, yet it does not resolve to itself:
    the table lookup finds the function every object inherits, and that
    built-in, not the string, becomes the outbound model. *)
Theorem inherited_name_not_passed_through (env : Env) (msgs flag : JsVal) :
  AVAILABLE_MODELS !! "toString"%string = None
  /\ selectedModel env (request_of msgs flag (Some "toString"%string))
     = JBuiltin "toString"
  /\ requestBody env (request_of msgs flag (Some "toString"%string))
       !! "model"%string = Some (JBuiltin "toString")
  /\ requestBody env (request_of msgs flag (Some "toString"%string))
       !! "model"%string <> Some (JStr "toString").
Proof.
  assert (requestBody env (request_of msgs flag (Some "toString"%string))
            !! "model"%string = Some (JBuiltin "toString")) as E.
  { vm_compute. reflexivity. }
  split; [vm_compute; reflexivity|]. split; [reflexivity|].
  split; [exact E|]. rewrite E. discriminate.
Qed.

(** ** The outbound payload *)

(** What the payload holds under each sampling parameter. *)
Lemma requestBody_lookup (env : Env) (req : ChatRequest) :
  requestBody env req !! "temperature"%string
  = Some (js_or (temperature req) (JNum (7 # 10)))
  /\ requestBody env req !! "max_tokens"%string
     = Some (js_or (max_tokens req) (JNum 1000))
  /\ requestBody env req !! "top_p"%string
     = (if truthy (top_p req) then Some (top_p req) else None)
  /\ requestBody env req !! "frequency_penalty"%string
     = (if truthy (frequency_penalty req) then Some (frequency_penalty req)
        else None)
  /\ requestBody env req !! "presence_penalty"%string
     = (if truthy (presence_penalty req) then Some (presence_penalty req)
        else None).
Proof.
  unfold requestBody, and_spread.
  destruct (truthy (top_p req)), (truthy (frequency_penalty req)),
           (truthy (presence_penalty req));
    repeat split; vm_compute; reflexivity.
Qed.

Lemma is_Some_when {A} (b : bool) (x : A) :
  is_Some (if b then Some x else None) <-> b = true.
Proof.
  destruct b; split; intros H; try reflexivity; try discriminate; eauto.
  destruct H; discriminate.
Qed.

Lemma when_Some {A} (b : bool) (x v : A) :
  (if b then Some x else None) = Some v -> v = x.
Proof. destruct b; congruence. Qed.

(** A status outside the 2xx range carries no body exactly when it is
    informational or 304. *)
Lemma bodyless_failure (code : Z) :
  (200 <=? code) && (code <=? 299) = false ->
  bodyless code = ((100 <=? code) && (code <=? 199)) || (code =? 304).
Proof.
  intros H. unfold bodyless.
  destruct (Z.eqb_spec code 204) as [->|_]; [discriminate H|].
  destruct (Z.eqb_spec code 205) as [->|_]; [discriminate H|].
  now rewrite !orb_false_r.
Qed.

(** ** A validated request *)

Section Accepted.

Variables (env : Env) (w : World) (req : ChatRequest).
Hypothesis Htoken : env_truthy (HF_TOKEN env) = true.
Hypothesis Hmessages : invalid_messages (messages req) = false.

(** With a credential and a valid message sequence the handler makes the
    call, with the payload built from the request, and goes on with the
    reply. *)
Lemma chat_completions_calls_upstream :
  run (chat_completions env w req)
  = calls (try_catch
             (let* response :=
                await (fetch w HF_URL (fetch_options env (requestBody env req))) in
              respond env w req response)
             server_error
             (started (Fetch HF_URL (fetch_options env (requestBody env req))))).2.
Proof.
  rewrite chat_completions_parsed. unfold run, chat_guarded. rewrite Htoken, Hmessages. reflexivity.
Qed.

(** A validated request costs exactly one outbound call, carrying the
    payload built from it, whatever the upstream answers. *)
Lemma one_upstream_call :
  exists rest,
    run (chat_completions env w req)
    = Fetch HF_URL (fetch_options env (requestBody env req)) :: rest
    /\ network_calls rest = [].
Proof.
  rewrite chat_completions_calls_upstream.
  assert (offline (try_catch
            (let* response :=
               await (fetch w HF_URL (fetch_options env (requestBody env req))) in
             respond env w req response) server_error)) as Hoff.
  { apply offline_try_catch; [|apply offline_server_error].
    apply offline_bind; [auto with offline|]. apply offline_respond. }
  destruct (Hoff (started (Fetch HF_URL
                     (fetch_options env (requestBody env req)))))
    as (tr & E & N).
  exists tr. rewrite E. now split.
Qed.

(** C6. For a validated request the handler's outbound call carries
    [requestBody]; in it [temperature] is 0.7 when the inbound one is
    absent, [max_tokens] is 1000 when the inbound one is absent, and each
    of [top_p], [frequency_penalty], [presence_penalty] is present exactly
    when its inbound value is truthy, with that value; an inbound 0 is left
    out as an absent one is. *)
Theorem outbound_payload_defaults :
  (exists rest,
     run (chat_completions env w req)
     = Fetch HF_URL (fetch_options env (requestBody env req)) :: rest)
  /\ (temperature req = JUndefined ->
      requestBody env req !! "temperature"%string = Some (JNum (7 # 10)))
  /\ (max_tokens req = JUndefined ->
      requestBody env req !! "max_tokens"%string = Some (JNum 1000))
  /\ (is_Some (requestBody env req !! "top_p"%string)
      <-> truthy (top_p req) = true)
  /\ (is_Some (requestBody env req !! "frequency_penalty"%string)
      <-> truthy (frequency_penalty req) = true)
  /\ (is_Some (requestBody env req !! "presence_penalty"%string)
      <-> truthy (presence_penalty req) = true)
  /\ (forall v, requestBody env req !! "top_p"%string = Some v -> v = top_p req)
  /\ (forall v, requestBody env req !! "frequency_penalty"%string = Some v ->
                v = frequency_penalty req)
  /\ (forall v, requestBody env req !! "presence_penalty"%string = Some v ->
                v = presence_penalty req)
  /\ (top_p req = JNum 0 -> requestBody env req !! "top_p"%string = None)
  /\ (frequency_penalty req = JNum 0 ->
      requestBody env req !! "frequency_penalty"%string = None)
  /\ (presence_penalty req = JNum 0 ->
      requestBody env req !! "presence_penalty"%string = None).
Proof.
  destruct one_upstream_call as (rest & E & _).
  destruct (requestBody_lookup env req) as (Ht & Hm & Hp & Hf & Hs).
  split; [now exists rest|].
  split; [intros H; rewrite Ht, H; reflexivity|].
  split; [intros H; rewrite Hm, H; reflexivity|].
  rewrite Hp, Hf, Hs.
  split; [apply is_Some_when|].
  split; [apply is_Some_when|].
  split; [apply is_Some_when|].
  split; [apply when_Some|].
  split; [apply when_Some|].
  split; [apply when_Some|].
  split; [|split]; intros ->; reflexivity.
Qed.

(** *** The upstream has answered *)

Section Replied.

Variable response : Response.
Hypothesis Hfetch :
  fetch w HF_URL (fetch_options env (requestBody env req)) = Ok response.

Lemma chat_completions_responds :
  run (chat_completions env w req)
  = calls (try_catch (respond env w req response) server_error
             (started (Fetch HF_URL
                         (fetch_options env (requestBody env req))))).2.
Proof.
  rewrite chat_completions_calls_upstream.
  unfold try_catch, bind, await. rewrite Hfetch. reflexivity.
Qed.

(** The trace of a failed upstream call whose body was read as text. *)
Lemma upstream_failure_trace (raw : string) :
  ok response = false ->
  text response = Ok raw ->
  run (chat_completions env w req)
  = [ Fetch HF_URL (fetch_options env (requestBody env req));
      Res_status (status response);
      Res_json (failure_body (status response) raw) ].
Proof.
  intros Hok Htext. rewrite chat_completions_responds.
  unfold respond. rewrite Hok. cbn [negb].
  unfold upstream_failure, try_catch, bind, await. rewrite Htext.
  reflexivity.
Qed.

(** The trace of a 2xx reply with a JSON body to a request that asked for
    no stream. *)
Lemma success_trace (data : JsVal) :
  truthy (stream req) = false ->
  ok response = true ->
  json response = Ok data ->
  run (chat_completions env w req)
  = [ Fetch HF_URL (fetch_options env (requestBody env req)); Res_json data ].
Proof.
  intros Hstream Hok Hjson. rewrite chat_completions_responds.
  unfold respond. rewrite Hok, Hstream. cbn [negb].
  unfold try_catch, bind, await. rewrite Hjson. reflexivity.
Qed.

(** *** The client asked for a stream and the upstream succeeded *)

Section Streamed.

Hypothesis Hok : ok response = true.
Hypothesis Hstream : truthy (stream req) = true.

Lemma pass_through_trace :
  is_live response = true ->
  run (chat_completions env w req)
  = (Fetch HF_URL (fetch_options env (requestBody env req))
       :: stream_headers)
    ++ map (fun c => Res_write (Raw c)) (body_data response)
    ++ relay_closing (body_ending response).
Proof.
  intros Hlive. rewrite chat_completions_responds.
  unfold respond. rewrite Hok, Hstream. cbn [negb].
  unfold streaming. rewrite Hlive. unfold relay.
  unfold try_catch, bind. unfold call at 1 2 3 4.
  cbn [clock_reads calls started].
  rewrite relay_data_run. cbn [clock_reads calls].
  destruct (body_ending response); cbn; rewrite ?app_nil_r;
    try reflexivity.
  all: now rewrite <- List.app_assoc.
Qed.

(** C9. In pass-through mode the data written to the client is exactly
    the upstream's chunks, each as it arrived and in arrival order;
    when the upstream stream reports an error the handler ends the
    response right after the relayed chunks, and nothing in its trace
    writes the [DONE] sentinel. *)
Theorem pass_through_relay :
  is_live response = true ->
  written (reply (run (chat_completions env w req)))
  = map Raw (body_data response)
  /\ writes_of (run (chat_completions env w req))
     = map Raw (body_data response)
  /\ (forall message, body_ending response = Errored message ->
        run (chat_completions env w req)
        = (Fetch HF_URL (fetch_options env (requestBody env req))
             :: stream_headers)
          ++ map (fun c => Res_write (Raw c)) (body_data response)
          ++ [Res_end]
        /\ ended (reply (run (chat_completions env w req))) = true).
Proof.
  intros Hlive. rewrite (pass_through_trace Hlive).
  assert (Forall open_call
            ((Fetch HF_URL (fetch_options env (requestBody env req))
                :: stream_headers)
             ++ map (fun c => Res_write (Raw c)) (body_data response)))
    as Hopen.
  { apply Forall_app. split; [repeat constructor|apply relayed_open]. }
  rewrite List.app_assoc, reply_open_app by exact Hopen.
  rewrite !writes_of_app, writes_of_relayed.
  split; [|split].
  - destruct (body_ending response); cbn; now rewrite ?app_nil_r.
  - destruct (body_ending response); cbn; now rewrite ?app_nil_r.
  - intros message ->. split; reflexivity.
Qed.

Lemma simulated_trace :
  is_live response = false ->
  exists before last,
    run (chat_completions env w req)
    = (Fetch HF_URL (fetch_options env (requestBody env req))
         :: stream_headers)
      ++ before ++ [Res_write last; Res_write DONE; Res_end]
    /\ Forall pacing_call (before ++ [Res_write last])
    /\ Forall (fun d => finish_reason d = None
                        /\ is_Some (delta_content d))
         (writes_of before)
    /\ match answer response with
       | Ok words =>
           length (writes_of before) = pred (length words)
           /\ finish_reason last = Some "stop"%string
           /\ delta last = JObj []
           /\ reassemble (writes_of before) = join " " (removelast words)
       | Throw e =>
           before = []
           /\ finish_reason last = Some "error"%string
           /\ delta_content last = Some ("Error: " +:+ e)
       end.
Proof.
  intros Hlive. rewrite chat_completions_responds.
  unfold respond. rewrite Hok, Hstream. cbn [negb].
  unfold streaming. rewrite Hlive.
  unfold try_catch at 1. rewrite !bind_call.
  cbn [clock_reads calls started].
  destruct (simulate_outcome w (selectedModel env req) response
              {| clock_reads := 0;
                 calls :=
                   ((([Fetch HF_URL
                         (fetch_options env (requestBody env req))]
                      ++ [Res_setHeader "Content-Type"
                            "text/plain; charset=utf-8"])
                     ++ [Res_setHeader "Cache-Control" "no-cache"])
                    ++ [Res_setHeader "Connection" "keep-alive"])
                   ++ [Res_setHeader "Access-Control-Allow-Origin" "*"] |})
    as (before & last & st' & Hrun & Hcalls & Hrest).
  exists before, last. rewrite Hrun. cbn [snd]. rewrite Hcalls.
  split; [reflexivity|exact Hrest].
Qed.

(** C2. In simulated mode (a truthy [stream], a 2xx upstream reply that
    is not a live stream) the data written is: chunks without a
    [finish_reason], then exactly one terminal chunk, then the raw text
    [data: [DONE]] followed by two line feeds (character 010), after which
    the response is ended.  The terminal chunk has [finish_reason] "stop"
    and the empty delta when the answer was read, and [finish_reason]
    "error" with the fault's message (after the prefix "Error: ") as
    [delta.content] when reading it threw. *)
Theorem simulated_stream_terminated :
  is_live response = false ->
  exists contents last,
    written (reply (run (chat_completions env w req)))
    = contents
      ++ [ last;
           Raw ("data: [DONE]" +:+ String "010" (String "010" "")) ]
    /\ Forall (fun d => terminal d = false) contents
    /\ terminal last = true
    /\ List.filter terminal
         (written (reply (run (chat_completions env w req))))
       = [last]
    /\ match answer response with
       | Ok _ =>
           finish_reason last = Some "stop"%string /\ delta last = JObj []
       | Throw e =>
           finish_reason last = Some "error"%string
           /\ delta_content last = Some ("Error: " +:+ e)
       end
    /\ ended (reply (run (chat_completions env w req))) = true
    /\ exists before,
         run (chat_completions env w req)
         = before
           ++ [ Res_write last;
                Res_write
                  (Raw ("data: [DONE]" +:+ String "010" (String "010" "")));
                Res_end ].
Proof.
  intros Hlive.
  destruct (simulated_trace Hlive)
    as (before & last & Htrace & Hpace & Hall & Hcase).
  destruct (simulated_reply
              (Fetch HF_URL (fetch_options env (requestBody env req))
                 :: stream_headers) before last)
    as [Hwritten Hended]; [repeat constructor|exact Hpace|reflexivity|].
  assert (Forall (fun d => terminal d = false) (writes_of before))
    as Hquiet.
  { eapply Forall_impl; [exact Hall|]. intros d [Hd _]. unfold terminal.
    now rewrite Hd. }
  assert (terminal last = true) as Hlast.
  { destruct (answer response); destruct Hcase as (? & Hcase);
      [destruct Hcase as (Hfin & _)|destruct Hcase as (Hfin & _)];
      exact (terminal_of_finish_reason _ _ Hfin). }
  exists (writes_of before), last. rewrite Htrace, Hwritten.
  split; [reflexivity|]. split; [exact Hquiet|]. split; [exact Hlast|].
  split.
  { rewrite List.filter_app, filter_nonterminal by exact Hquiet.
    cbn. now rewrite Hlast. }
  split.
  { destruct (answer response).
    - destruct Hcase as (_ & Hfin & Hdelta & _). now split.
    - destruct Hcase as (_ & Hfin & Hcontent). now split. }
  split; [exact Hended|].
  eexists. rewrite List.app_assoc. reflexivity.
Qed.

(** What a client reassembles in simulated mode: the words of the
    answer joined by single spaces, without the last word. *)
Lemma simulated_reassembly (words : list string) :
  is_live response = false ->
  answer response = Ok words ->
  reassemble (written (reply (run (chat_completions env w req))))
  = join " " (removelast words).
Proof.
  intros Hlive Hanswer.
  destruct (simulated_trace Hlive)
    as (before & last & Htrace & Hpace & Hall & Hcase).
  rewrite Hanswer in Hcase. destruct Hcase as (_ & _ & Hdelta & Hre).
  destruct (simulated_reply
              (Fetch HF_URL (fetch_options env (requestBody env req))
                 :: stream_headers) before last)
    as [Hwritten _]; [repeat constructor|exact Hpace|reflexivity|].
  rewrite Htrace, Hwritten.
  replace (writes_of before ++ [last; DONE])
    with ((writes_of before ++ [last]) ++ [DONE])
    by (rewrite <- List.app_assoc; reflexivity).
  rewrite !reassemble_snoc_empty; [exact Hre| |reflexivity].
  unfold delta_content. now rewrite Hdelta.
Qed.

End Streamed.

End Replied.

End Accepted.

(** ** The properties at sample inputs *)

(** A request with no [temperature] and [top_p] 0: the payload holds 0.7
    and no [top_p]. *)
Lemma outbound_payload_defaults_witness :
  requestBody configured
    {| messages := hi_there; temperature := JUndefined; max_tokens := JUndefined;
       stream := JUndefined; model := None; top_p := JNum 0;
       frequency_penalty := JUndefined; presence_penalty := JNum (1 # 2) |}
    !! "temperature"%string = Some (JNum (7 # 10))
  /\ requestBody configured
       {| messages := hi_there; temperature := JUndefined;
          max_tokens := JUndefined; stream := JUndefined; model := None;
          top_p := JNum 0; frequency_penalty := JUndefined;
          presence_penalty := JNum (1 # 2) |}
       !! "top_p"%string = None.
Proof.
  destruct (outbound_payload_defaults configured
              (world_of (json_reply 200 "{}" hello_friend))
              {| messages := hi_there; temperature := JUndefined;
                 max_tokens := JUndefined; stream := JUndefined; model := None;
                 top_p := JNum 0; frequency_penalty := JUndefined;
                 presence_penalty := JNum (1 # 2) |}
              eq_refl eq_refl)
    as (_ & Htemperature & _ & _ & _ & _ & _ & _ & _ & Hzero & _).
  split; [apply Htemperature; reflexivity | apply Hzero; reflexivity].
Defined.

(** C4, as stated, fails: when the upstream answers 304 the client receives
    status 304 and no body. *)
Lemma not_modified_has_no_body :
  ~ (forall (env : Env) (w : World) (req : ChatRequest) (response : Response)
            (raw : string),
       env_truthy (HF_TOKEN env) = true ->
       invalid_messages (messages req) = false ->
       fetch w HF_URL (fetch_options env (requestBody env req)) = Ok response ->
       ok response = false ->
       text response = Ok raw ->
       statusCode (reply (run (chat_completions env w req))) = status response
       /\ sent (reply (run (chat_completions env w req)))
          = Some (JObj [ ("error", JStr "Error desde Hugging Face");
                         ("details", JStr raw);
                         ("status", JNum (inject_Z (status response))) ]%string)).
Proof.
  intros H.
  destruct (H configured (world_of (json_reply 304 "" JNull))
              (request_of hi_there JUndefined None)
              (json_reply 304 "" JNull) ""%string)
    as [_ Hsent]; try reflexivity.
  vm_compute in Hsent. discriminate.
Qed.

(** C4, amended. When the upstream call returns a final status S outside
    the 2xx range (so S is 300 or more), with raw body B, the handler
    answers with status S and hands
    [{error: "Error desde Hugging Face", details: B, status: S}] to
    [res.json], B carried as the text it is; the client receives that body
    unless S is 304, with which it receives none; and the trace holds the
    one outbound call only. *)
Theorem upstream_failure_forwarded (env : Env) (w : World) (req : ChatRequest)
    (response : Response) (raw : string) :
  env_truthy (HF_TOKEN env) = true ->
  invalid_messages (messages req) = false ->
  fetch w HF_URL (fetch_options env (requestBody env req)) = Ok response ->
  ok response = false ->
  200 <= status response <= 999 ->
  text response = Ok raw ->
  run (chat_completions env w req)
  = [ Fetch HF_URL (fetch_options env (requestBody env req));
      Res_status (status response);
      Res_json (JObj [ ("error", JStr "Error desde Hugging Face");
                       ("details", JStr raw);
                       ("status", JNum (inject_Z (status response))) ]%string) ]
  /\ statusCode (reply (run (chat_completions env w req))) = status response
  /\ sent (reply (run (chat_completions env w req)))
     = (if status response =? 304 then None
        else Some (JObj [ ("error", JStr "Error desde Hugging Face");
                          ("details", JStr raw);
                          ("status", JNum (inject_Z (status response))) ]%string))
  /\ network_calls (run (chat_completions env w req))
     = [ (HF_URL, fetch_options env (requestBody env req)) ].
Proof.
  intros Htoken Hmessages Hfetch Hok Hrange Htext.
  rewrite (upstream_failure_trace env w req Htoken Hmessages response Hfetch
             raw Hok Htext).
  split; [reflexivity|]. split; [reflexivity|]. split; [|reflexivity].
  cbn. rewrite (bodyless_failure _ Hok).
  destruct (Z.leb_spec (status response) 199); [lia|].
  now rewrite andb_false_r.
Qed.

(** The upstream answers 429 with the text "rate limited". *)
Lemma upstream_failure_forwarded_witness :
  statusCode (reply (run (chat_completions configured
     (world_of (json_reply 429 "rate limited" JNull))
     (request_of hi_there JUndefined None)))) = 429
  /\ sent (reply (run (chat_completions configured
       (world_of (json_reply 429 "rate limited" JNull))
       (request_of hi_there JUndefined None))))
     = Some (JObj [ ("error", JStr "Error desde Hugging Face");
                    ("details", JStr "rate limited");
                    ("status", JNum 429) ]%string)
  /\ network_calls (run (chat_completions configured
       (world_of (json_reply 429 "rate limited" JNull))
       (request_of hi_there JUndefined None)))
     = [ (HF_URL, fetch_options configured
           (requestBody configured (request_of hi_there JUndefined None))) ].
Proof.
  destruct (upstream_failure_forwarded configured
              (world_of (json_reply 429 "rate limited" JNull))
              (request_of hi_there JUndefined None)
              (json_reply 429 "rate limited" JNull) "rate limited"
              eq_refl eq_refl eq_refl eq_refl
              ltac:(split; discriminate)
              eq_refl)
    as (_ & Hstatus & Hsent & Hcalls).
  split; [exact Hstatus|]. split; [exact Hsent|exact Hcalls].
Defined.

(** C3, as stated, fails: an upstream 201 is answered to the client as
    200. *)
Lemma success_status_not_forwarded :
  ~ (forall (env : Env) (w : World) (req : ChatRequest) (response : Response)
            (data : JsVal),
       env_truthy (HF_TOKEN env) = true ->
       invalid_messages (messages req) = false ->
       truthy (stream req) = false ->
       fetch w HF_URL (fetch_options env (requestBody env req)) = Ok response ->
       ok response = true ->
       json response = Ok data ->
       statusCode (reply (run (chat_completions env w req))) = status response
       /\ sent (reply (run (chat_completions env w req))) = Some data).
Proof.
  intros H.
  destruct (H configured (world_of (json_reply 201 "{}" (JObj [])))
              (request_of hi_there (JBool false) None)
              (json_reply 201 "{}" (JObj [])) (JObj []))
    as [Hstatus _]; try reflexivity.
  vm_compute in Hstatus. discriminate.
Qed.

(** C3, amended. While a credential is configured: for a valid request with
    [stream] false whose upstream call returns a 2xx reply with a JSON body,
    the client receives that JSON body unchanged, with status 200 (the
    handler never sets another status on success); and in [server.js] the
    same holds of every request whose upstream call returns such a reply,
    whatever its [messages] and [stream] are. *)
Theorem success_body_forwarded (env : Env) (w : World) (req : ChatRequest)
    (response : Response) (data : JsVal) :
  env_truthy (HF_TOKEN env) = true ->
  ok response = true ->
  json response = Ok data ->
  (invalid_messages (messages req) = false ->
   truthy (stream req) = false ->
   fetch w HF_URL (fetch_options env (requestBody env req)) = Ok response ->
   run (chat_completions env w req)
   = [ Fetch HF_URL (fetch_options env (requestBody env req)); Res_json data ]
   /\ statusCode (reply (run (chat_completions env w req))) = 200
   /\ sent (reply (run (chat_completions env w req))) = Some data)
  /\ (fetch w HF_URL (fetch_options env (basic_body env req)) = Ok response ->
      run (basic_chat_completions env w req)
      = [ Fetch HF_URL (fetch_options env (basic_body env req));
          Res_json data ]
      /\ statusCode (reply (run (basic_chat_completions env w req))) = 200
      /\ sent (reply (run (basic_chat_completions env w req))) = Some data).
Proof.
  intros Htoken Hok Hjson. split.
  - intros Hmessages Hstream Hfetch.
    rewrite (success_trace env w req Htoken Hmessages response Hfetch data
               Hstream Hok Hjson).
    repeat split; reflexivity.
  - intros Hbasic.
    assert (run (basic_chat_completions env w req)
            = [ Fetch HF_URL (fetch_options env (basic_body env req));
                Res_json data ]) as E.
    { rewrite basic_chat_completions_parsed. unfold run, basic_guarded.
      rewrite Htoken. cbn [negb].
      unfold do_fetch. unfold try_catch, bind, call, await.
      rewrite Hbasic, Hok. cbn [negb]. rewrite Hjson. reflexivity. }
    rewrite E. repeat split; reflexivity.
Qed.

(** The upstream answers 200 with the "Hello friend" completion to a request
    that does not ask for a stream. *)
Lemma success_body_forwarded_witness :
  (statusCode (reply (run (chat_completions configured
      (world_of (json_reply 200 "{}" hello_friend))
      (request_of hi_there (JBool false) None)))) = 200
   /\ sent (reply (run (chat_completions configured
        (world_of (json_reply 200 "{}" hello_friend))
        (request_of hi_there (JBool false) None)))) = Some hello_friend)
  /\ (statusCode (reply (run (basic_chat_completions configured
         (world_of (json_reply 200 "{}" hello_friend))
         (request_of hi_there (JBool false) None)))) = 200
      /\ sent (reply (run (basic_chat_completions configured
           (world_of (json_reply 200 "{}" hello_friend))
           (request_of hi_there (JBool false) None)))) = Some hello_friend).
Proof.
  destruct (success_body_forwarded configured
              (world_of (json_reply 200 "{}" hello_friend))
              (request_of hi_there (JBool false) None)
              (json_reply 200 "{}" hello_friend) hello_friend
              eq_refl eq_refl eq_refl)
    as [Hextended Hbasic].
  destruct (Hextended eq_refl eq_refl eq_refl) as (_ & H1 & H2).
  destruct (Hbasic eq_refl) as (_ & H3 & H4).
  repeat split; assumption.
Defined.

(** The upstream streams two chunks and then reports an error. *)
Lemma pass_through_relay_witness :
  written (reply (run (chat_completions configured
     (world_of (live_reply ["data: {}"; "data: {}"]%string (Errored "reset")))
     (request_of hi_there (JBool true) None))))
  = [Raw "data: {}"; Raw "data: {}"]
  /\ ended (reply (run (chat_completions configured
       (world_of (live_reply ["data: {}"; "data: {}"]%string (Errored "reset")))
       (request_of hi_there (JBool true) None)))) = true.
Proof.
  destruct (pass_through_relay configured
              (world_of (live_reply ["data: {}"; "data: {}"]%string
                           (Errored "reset")))
              (request_of hi_there (JBool true) None) eq_refl eq_refl
              (live_reply ["data: {}"; "data: {}"]%string (Errored "reset"))
              eq_refl eq_refl eq_refl eq_refl)
    as (Hwritten & _ & Herror).
  split; [exact Hwritten|].
  exact (proj2 (Herror "reset"%string eq_refl)).
Defined.

(** The upstream answers a streaming request with the JSON document [{}],
    which has no [choices]: reading the answer throws and the stream is the
    error chunk followed by the sentinel. *)
Lemma simulated_stream_terminated_witness :
  exists contents last,
    written (reply (run (chat_completions configured
      (world_of (json_reply 200 "{}" (JObj [])))
      (request_of hi_there (JBool true) None))))
    = contents
      ++ [ last; Raw ("data: [DONE]" +:+ String "010" (String "010" "")) ]
    /\ terminal last = true
    /\ finish_reason last = Some "error"%string
    /\ ended (reply (run (chat_completions configured
         (world_of (json_reply 200 "{}" (JObj [])))
         (request_of hi_there (JBool true) None)))) = true.
Proof.
  destruct (simulated_stream_terminated configured
              (world_of (json_reply 200 "{}" (JObj [])))
              (request_of hi_there (JBool true) None) eq_refl eq_refl
              (json_reply 200 "{}" (JObj [])) eq_refl
              eq_refl eq_refl eq_refl)
    as (contents & last & Hwritten & _ & Hlast & _ & Hcase & Hended & _).
  exists contents, last. split; [exact Hwritten|]. split; [exact Hlast|].
  split; [exact (proj1 Hcase)|exact Hended].
Defined.

(** The answer read from a complete body is its content split at the spaces. *)
Lemma answer_completion (code : Z) (raw content : string) :
  content <> ""%string ->
  answer (json_reply code raw (completion content)) = Ok (split " " content).
Proof.
  intros Hne. unfold answer. cbn.
  unfold js_or. cbn. destruct (String.eqb_spec content ""); [contradiction|].
  reflexivity.
Qed.

(** For any non-empty answer text, simulated streaming delivers the text
    without its last word, although the words joined again are the text. *)
Lemma simulated_drops_last_word (env : Env) (w : World) (req : ChatRequest)
    (code : Z) (raw content : string) :
  env_truthy (HF_TOKEN env) = true ->
  invalid_messages (messages req) = false ->
  fetch w HF_URL (fetch_options env (requestBody env req))
  = Ok (json_reply code raw (completion content)) ->
  ok (json_reply code raw (completion content)) = true ->
  truthy (stream req) = true ->
  content <> ""%string ->
  reassemble (written (reply (run (chat_completions env w req))))
  = join " " (removelast (split " " content))
  /\ join " " (split " " content) = content.
Proof.
  intros Htoken Hmessages Hfetch Hok Hstream Hne. split.
  - apply (simulated_reassembly env w req Htoken Hmessages _ Hfetch Hok Hstream);
      [reflexivity|]. now apply answer_completion.
  - apply (join_split " ").
Qed.

(** C1, at the scenario of the specification. The upstream answers
    "Hello friend" to a streaming request: the handler writes one content
    chunk ("Hello"), the terminal chunk and the sentinel; the second word is
    never written, and the deltas reassemble to "Hello", not to the answer. *)
Theorem hello_friend_last_word_dropped :
  answer (json_reply 200 "{}" hello_friend) = Ok ["Hello"; "friend"]%string
  /\ map delta_content
       (written (reply (run (chat_completions configured
          (world_of (json_reply 200 "{}" hello_friend))
          (request_of hi_there (JBool true) None)))))
     = [Some "Hello"%string; None; None]
  /\ map finish_reason
       (written (reply (run (chat_completions configured
          (world_of (json_reply 200 "{}" hello_friend))
          (request_of hi_there (JBool true) None)))))
     = [None; Some "stop"%string; None]
  /\ List.last
       (written (reply (run (chat_completions configured
          (world_of (json_reply 200 "{}" hello_friend))
          (request_of hi_there (JBool true) None))))) (Raw "")
     = DONE
  /\ reassemble
       (written (reply (run (chat_completions configured
          (world_of (json_reply 200 "{}" hello_friend))
          (request_of hi_there (JBool true) None)))))
     = "Hello"%string
  /\ reassemble
       (written (reply (run (chat_completions configured
          (world_of (json_reply 200 "{}" hello_friend))
          (request_of hi_there (JBool true) None)))))
     <> "Hello friend"%string.
Proof.
  repeat split; try (vm_compute; reflexivity).
  vm_compute. discriminate.
Qed.

(** * Further properties *)

(** ** The alias table as a list and as a map *)

Lemma AVAILABLE_MODELS_of_entries :
  AVAILABLE_MODELS = list_to_map AVAILABLE_MODELS_entries.
Proof. reflexivity. Qed.

Lemma not_inherited (k : string) :
  bool_decide (k ∈ Object_prototype) = false -> k ∉ Object_prototype.
Proof. apply bool_decide_eq_false_1. Qed.

(** X1. [GET /v1/models] answers 200 with one entry per alias, in the order
    of the table; each entry names the alias as [id] and [root] and the
    table's value as [full_model_id], and a chat request whose [model] is a
    listed [id] is sent upstream with that [full_model_id]. *)
Theorem listed_models_resolve (w : World) :
  exists models,
    run (list_models w)
    = [ Res_json (JObj [ ("object", JStr "list");
                         ("data", JArr models) ]%string) ]
    /\ statusCode (reply (run (list_models w))) = 200
    /\ map (field "id") models
       = map (fun kv => JStr kv.1) AVAILABLE_MODELS_entries
    /\ Forall (fun entry =>
                 exists alias id,
                   field "id" entry = JStr alias
                   /\ field "root" entry = JStr alias
                   /\ field "full_model_id" entry = JStr id
                   /\ AVAILABLE_MODELS !! alias = Some id
                   /\ forall env req, model req = Some alias ->
                                      selectedModel env req = JStr id)
         models.
Proof.
  eexists. split; [reflexivity|]. split; [reflexivity|].
  split; [reflexivity|].
  repeat constructor;
    (eexists _, _; split; [reflexivity|]; split; [reflexivity|];
     split; [reflexivity|]; split; [vm_compute; reflexivity|];
     intros env req Hmodel; apply (selectedModel_alias env req _ _ Hmodel);
     vm_compute; reflexivity).
Qed.

Lemma full_id_fixed (alias id : string) :
  AVAILABLE_MODELS !! alias = Some id ->
  AVAILABLE_MODELS !! id = None ->
  id ∉ Object_prototype ->
  id <> ""%string ->
  forall env by_alias by_id,
    model by_alias = Some (alias, id).1 -> model by_id = Some (alias, id).2 ->
    selectedModel env by_id = JStr (alias, id).2
    /\ selectedModel env by_alias = selectedModel env by_id.
Proof.
  intros Hkey Hnone Hproto Hne env by_alias by_id Halias Hid. cbn [fst snd] in *.
  rewrite (selectedModel_passthrough env by_id id Hid Hne Hnone Hproto).
  split; [reflexivity|].
  apply (selectedModel_alias env by_alias alias id Halias Hkey).
Qed.

(** X2. The values of the alias table are fixed points of the resolution: a
    request that names a fully-qualified id of the table is sent upstream
    with that id, the same outbound model as a request that names its
    alias. *)
Theorem full_ids_resolve_to_themselves :
  Forall (fun kv =>
            forall env by_alias by_id,
              model by_alias = Some kv.1 -> model by_id = Some kv.2 ->
              selectedModel env by_id = JStr kv.2
              /\ selectedModel env by_alias = selectedModel env by_id)
    AVAILABLE_MODELS_entries.
Proof.
  unfold AVAILABLE_MODELS_entries.
  repeat (apply List.Forall_cons;
          [apply full_id_fixed;
           [vm_compute; reflexivity|vm_compute; reflexivity
           |apply not_inherited; vm_compute; reflexivity|discriminate]|]).
  apply List.Forall_nil.
Qed.

(** ** Invariants of the outbound payload *)

Lemma DEFAULT_MODEL_nonempty (env : Env) : DEFAULT_MODEL env <> ""%string.
Proof.
  unfold DEFAULT_MODEL, or_string.
  destruct (env_HF_MODEL env) as [s|]; [|discriminate].
  destruct (String.eqb_spec s ""); [discriminate|assumption].
Qed.

Lemma truthy_JStr (s : string) : s <> ""%string -> truthy (JStr s) = true.
Proof. intros H. cbn. now destruct (String.eqb_spec s ""). Qed.

Lemma js_or_truthy (a b : JsVal) : truthy b = true -> truthy (js_or a b) = true.
Proof. intros Hb. unfold js_or. now destruct (truthy a) eqn:E. Qed.

(** The fixed properties of the payload. *)
Lemma requestBody_fixed (env : Env) (req : ChatRequest) :
  requestBody env req !! "model"%string = Some (selectedModel env req)
  /\ requestBody env req !! "messages"%string = Some (messages req)
  /\ requestBody env req !! "stream"%string
     = Some (js_or (stream req) (JBool false)).
Proof.
  unfold requestBody, and_spread.
  destruct (truthy (top_p req)), (truthy (frequency_penalty req)),
           (truthy (presence_penalty req));
    repeat split; vm_compute; reflexivity.
Qed.

Lemma JStr_truthy_nonempty (s : string) :
  truthy (JStr s) = true -> s <> ""%string.
Proof. cbn. now destruct (String.eqb_spec s ""). Qed.

(** X3. For every request whose [model] is omitted or a string, the model
    put in the outbound payload is truthy: it is a string that is not empty
    or, for a name inherited from [Object.prototype], a built-in object;
    never [undefined], [null] or the empty string.  An omitted or empty
    [model] gives the configured default, which is itself never empty. *)
Theorem outbound_model_truthy (env : Env) (req : ChatRequest) :
  requestBody env req !! "model"%string = Some (selectedModel env req)
  /\ truthy (selectedModel env req) = true
  /\ ((exists s, selectedModel env req = JStr s /\ s <> ""%string)
      \/ (exists k, selectedModel env req = JBuiltin k /\ k ∈ Object_prototype))
  /\ DEFAULT_MODEL env <> ""%string
  /\ selectedModel env (request_of (messages req) (stream req) (Some ""%string))
     = JStr (DEFAULT_MODEL env).
Proof.
  split; [apply requestBody_fixed|].
  assert ((exists s, selectedModel env req = JStr s /\ s <> ""%string)
          \/ (exists k, selectedModel env req = JBuiltin k
                        /\ k ∈ Object_prototype)) as Hshape.
  { unfold selectedModel.
    destruct (model req) as [m|];
      [|left; eexists; split; [reflexivity|apply DEFAULT_MODEL_nonempty]].
    destruct (truthy (JStr m)) eqn:Hm;
      [|left; eexists; split; [reflexivity|apply DEFAULT_MODEL_nonempty]].
    apply JStr_truthy_nonempty in Hm.
    unfold js_or, AVAILABLE_MODELS_get, inherited.
    destruct (AVAILABLE_MODELS !! m) as [id|].
    - destruct (truthy (JStr id)) eqn:Hid.
      + left. exists id. split; [reflexivity|].
        now apply JStr_truthy_nonempty.
      + left. now exists m.
    - destruct (bool_decide (m ∈ Object_prototype)) eqn:Hin.
      + right. exists m. split; [reflexivity|].
        apply bool_decide_eq_true in Hin. exact Hin.
      + left. now exists m. }
  split; [|split; [exact Hshape|split;
                   [apply DEFAULT_MODEL_nonempty|reflexivity]]].
  destruct Hshape as [(s & -> & Hs)|(k & -> & _)];
    [now apply truthy_JStr|reflexivity].
Qed.

(** X4. The outbound [temperature] and [max_tokens] are always present and
    truthy: a truthy inbound value is forwarded as it is, and every falsy
    one, 0 included, is replaced by the default (0.7, 1000), so a
    temperature of 0 cannot be requested. *)
Theorem sampling_defaults_truthy (env : Env) (req : ChatRequest) :
  exists t m,
    requestBody env req !! "temperature"%string = Some t
    /\ requestBody env req !! "max_tokens"%string = Some m
    /\ truthy t = true /\ truthy m = true
    /\ t = (if truthy (temperature req) then temperature req else JNum (7 # 10))
    /\ m = (if truthy (max_tokens req) then max_tokens req else JNum 1000)
    /\ truthy (JNum 0) = false.
Proof.
  destruct (requestBody_lookup env req) as (Ht & Hm & _).
  eexists _, _. split; [exact Ht|]. split; [exact Hm|].
  split; [now apply js_or_truthy|]. split; [now apply js_or_truthy|].
  repeat split.
Qed.

Lemma dom_fold_insert (props : list (string * JsVal)) :
  forall o : gmap string JsVal,
    dom (fold_left (fun o kv => <[kv.1 := kv.2]> o) props o)
    = list_to_set props.*1 ∪ dom o.
Proof.
  induction props as [|[k v] props IH]; intros o; cbn [fold_left fmap list_fmap].
  - cbn. now rewrite (left_id_L ∅ (∪)).
  - rewrite IH. cbn [fst snd list_to_set]. rewrite dom_insert_L.
    rewrite (assoc_L (∪)). f_equal. apply (comm_L (∪)).
Qed.

(** The names of an object literal are the names of its properties. *)
Lemma dom_js_object (props : list (string * JsVal)) :
  dom (js_object props) = list_to_set props.*1.
Proof.
  unfold js_object. rewrite dom_fold_insert, dom_empty_L.
  apply (right_id_L ∅ (∪)).
Qed.

(** X5. The payload of the extended handler holds [model], [messages],
    [temperature], [max_tokens] and [stream], one property for each of
    [top_p], [frequency_penalty] and [presence_penalty] whose inbound value
    is truthy, and nothing else; [messages] is forwarded as it came and
    [stream] is the inbound value or [false]. *)
Theorem payload_names_exact (env : Env) (req : ChatRequest) :
  dom (requestBody env req)
  = list_to_set
      ([ "model"; "messages"; "temperature"; "max_tokens"; "stream" ]%string
       ++ (if truthy (top_p req) then ["top_p"%string] else [])
       ++ (if truthy (frequency_penalty req) then ["frequency_penalty"%string]
           else [])
       ++ (if truthy (presence_penalty req) then ["presence_penalty"%string]
           else []))
  /\ requestBody env req !! "messages"%string = Some (messages req)
  /\ requestBody env req !! "stream"%string
     = Some (js_or (stream req) (JBool false)).
Proof.
  split; [|apply requestBody_fixed].
  unfold requestBody, and_spread. rewrite dom_js_object.
  destruct (truthy (top_p req)), (truthy (frequency_penalty req)),
           (truthy (presence_penalty req));
    reflexivity.
Qed.

(** X6. The payload of [server.js] holds exactly [model], [messages],
    [temperature], [max_tokens] and [stream]: the model is the configured
    one whatever the request names, and no optional sampling parameter is
    forwarded. *)
Theorem basic_payload_fixed (env : Env) (req : ChatRequest) :
  dom (basic_body env req)
  = list_to_set
      [ "model"; "messages"; "temperature"; "max_tokens"; "stream" ]%string
  /\ basic_body env req !! "model"%string = Some (JStr (DEFAULT_MODEL env))
  /\ basic_body env req !! "messages"%string = Some (messages req)
  /\ basic_body env req !! "top_p"%string = None
  /\ basic_body env req !! "frequency_penalty"%string = None
  /\ basic_body env req !! "presence_penalty"%string = None.
Proof.
  split; [unfold basic_body; rewrite dom_js_object; reflexivity|].
  repeat split; vm_compute; reflexivity.
Qed.

(** X7. For a request that names no model (or the empty one) and whose
    optional sampling parameters are all falsy, the extended handler builds
    the same payload as [server.js]. *)
Theorem payloads_agree (env : Env) (req : ChatRequest) :
  model req = None \/ model req = Some ""%string ->
  truthy (top_p req) = false ->
  truthy (frequency_penalty req) = false ->
  truthy (presence_penalty req) = false ->
  requestBody env req = basic_body env req.
Proof.
  intros Hmodel Hp Hf Hs.
  unfold requestBody, basic_body, and_spread, selectedModel.
  rewrite Hp, Hf, Hs.
  destruct Hmodel as [-> | ->]; reflexivity.
Qed.

(** A request with no model and [top_p] 0. *)
Lemma payloads_agree_witness :
  requestBody configured
    {| messages := hi_there; temperature := JNum (1 # 5);
       max_tokens := JUndefined; stream := JUndefined; model := None;
       top_p := JNum 0; frequency_penalty := JNull;
       presence_penalty := JUndefined |}
  = basic_body configured
      {| messages := hi_there; temperature := JNum (1 # 5);
         max_tokens := JUndefined; stream := JUndefined; model := None;
         top_p := JNum 0; frequency_penalty := JNull;
         presence_penalty := JUndefined |}.
Proof.
  apply (payloads_agree configured
           {| messages := hi_there; temperature := JNum (1 # 5);
              max_tokens := JUndefined; stream := JUndefined; model := None;
              top_p := JNum 0; frequency_penalty := JNull;
              presence_penalty := JUndefined |});
    [left; reflexivity|reflexivity|reflexivity|reflexivity].
Defined.

(** ** Telling a live stream from a document *)

Lemma prefix_occurs (sub : string) :
  forall s, String.prefix sub s = true <-> exists after, s = sub +:+ after.
Proof.
  induction sub as [|a sub IH]; intros s.
  - split; [intros _; now exists s|intros _; now destruct s].
  - destruct s as [|b s]; cbn [String.prefix].
    + split; [discriminate|intros [after H]; discriminate].
    + destruct (ascii_dec a b) as [->|Hne].
      * rewrite IH. split; intros [after H]; exists after.
        -- rewrite append_cons. now rewrite H.
        -- rewrite append_cons in H. now injection H.
      * split; [discriminate|intros [after H]].
        rewrite append_cons in H. injection H as Hab _. now symmetry in Hab.
Qed.

Lemma includes_occurs (sub : string) :
  forall s, includes s sub = true <-> occurs_in sub s.
Proof.
  induction s as [|c s IH]; cbn [includes]; rewrite orb_true_iff, prefix_occurs.
  - split.
    + intros [[after H]|H]; [|discriminate]. now exists ""%string, after.
    + intros ([|? ?] & after & H); [|discriminate]. left. now exists after.
  - rewrite IH. split.
    + intros [[after H]|(before & after & H)].
      * now exists ""%string, after.
      * exists (String c before), after. rewrite append_cons. now rewrite H.
    + intros ([|b before] & after & H).
      * left. now exists after.
      * right. exists before, after. rewrite append_cons in H. now injection H.
Qed.

(** X8. The upstream reply is relayed as a live stream exactly when it
    declares a content type in which "text/plain" or "text/event-stream"
    occurs, parameters such as a charset notwithstanding; a reply without a
    content type is treated as one document. *)
Theorem live_by_content_type (response : Response) :
  is_live response = true
  <-> exists declared,
        content_type response = Some declared
        /\ (occurs_in "text/plain" declared
            \/ occurs_in "text/event-stream" declared).
Proof.
  unfold is_live, or_string.
  destruct (content_type response) as [declared|].
  - destruct (String.eqb_spec declared "") as [->|Hne].
    + split; [discriminate|].
      intros (d & [= <-] & [H|H]); apply includes_occurs in H; discriminate.
    + rewrite orb_true_iff, !includes_occurs. split.
      * intros H. now exists declared.
      * now intros (d & [= <-] & H).
  - split; [discriminate|]. now intros (d & H & _).
Qed.

(** ** Every path of the extended handler *)

Lemma append_assoc (a b c : string) : (a +:+ b) +:+ c = a +:+ (b +:+ c).
Proof.
  induction a as [|x a IH]; [reflexivity|].
  rewrite !append_cons. now rewrite IH.
Qed.

Lemma fetch_rejected_trace (env : Env) (w : World) (req : ChatRequest)
    (e : string) :
  env_truthy (HF_TOKEN env) = true ->
  invalid_messages (messages req) = false ->
  fetch w HF_URL (fetch_options env (requestBody env req)) = Throw e ->
  run (chat_completions env w req)
  = Fetch HF_URL (fetch_options env (requestBody env req))
      :: server_error_trace e.
Proof.
  intros Htoken Hmessages Hfetch.
  rewrite chat_completions_calls_upstream by assumption.
  unfold try_catch, bind, await. rewrite Hfetch. reflexivity.
Qed.

Lemma failure_trace (env : Env) (w : World) (req : ChatRequest)
    (response : Response) :
  env_truthy (HF_TOKEN env) = true ->
  invalid_messages (messages req) = false ->
  fetch w HF_URL (fetch_options env (requestBody env req)) = Ok response ->
  ok response = false ->
  run (chat_completions env w req)
  = Fetch HF_URL (fetch_options env (requestBody env req))
      :: match text response with
         | Ok raw => [ Res_status (status response);
                       Res_json (failure_body (status response) raw) ]
         | Throw e => server_error_trace e
         end.
Proof.
  intros Htoken Hmessages Hfetch Hok.
  rewrite (chat_completions_responds env w req Htoken Hmessages response Hfetch).
  unfold respond. rewrite Hok. cbn [negb].
  unfold upstream_failure, try_catch, bind, await.
  destruct (text response); reflexivity.
Qed.

Lemma document_trace (env : Env) (w : World) (req : ChatRequest)
    (response : Response) :
  env_truthy (HF_TOKEN env) = true ->
  invalid_messages (messages req) = false ->
  fetch w HF_URL (fetch_options env (requestBody env req)) = Ok response ->
  ok response = true ->
  truthy (stream req) = false ->
  run (chat_completions env w req)
  = Fetch HF_URL (fetch_options env (requestBody env req))
      :: match json response with
         | Ok data => [Res_json data]
         | Throw e => server_error_trace e
         end.
Proof.
  intros Htoken Hmessages Hfetch Hok Hstream.
  rewrite (chat_completions_responds env w req Htoken Hmessages response Hfetch).
  unfold respond. rewrite Hok, Hstream. cbn [negb].
  unfold try_catch, bind, await.
  destruct (json response); reflexivity.
Qed.


(** X10. When the outbound call itself fails (the promise of [fetch]
    rejects), the client is answered 500 with the body
    [{error: "Error en el servidor", details: <the fault's message>}], and
    the call is not made again. *)
Theorem fetch_rejection_is_500 (env : Env) (w : World) (req : ChatRequest)
    (e : string) :
  env_truthy (HF_TOKEN env) = true ->
  invalid_messages (messages req) = false ->
  fetch w HF_URL (fetch_options env (requestBody env req)) = Throw e ->
  statusCode (reply (run (chat_completions env w req))) = 500
  /\ sent (reply (run (chat_completions env w req)))
     = Some (JObj [ ("error", JStr "Error en el servidor");
                    ("details", JStr e) ]%string)
  /\ ended (reply (run (chat_completions env w req))) = true
  /\ network_calls (run (chat_completions env w req))
     = [ (HF_URL, fetch_options env (requestBody env req)) ].
Proof.
  intros Htoken Hmessages Hfetch.
  rewrite (fetch_rejected_trace env w req e) by assumption.
  repeat split; reflexivity.
Qed.

(** A world whose network is down. *)
Lemma fetch_rejection_is_500_witness :
  statusCode (reply (run (chat_completions configured
    {| fetch := fun _ _ => Throw "getaddrinfo ENOTFOUND";
       Date_now := fun _ => 0 |}
    (request_of hi_there JUndefined None)))) = 500.
Proof.
  exact (proj1 (fetch_rejection_is_500 configured
                  {| fetch := fun _ _ => Throw "getaddrinfo ENOTFOUND";
                     Date_now := fun _ => 0 |}
                  (request_of hi_there JUndefined None)
                  "getaddrinfo ENOTFOUND" eq_refl eq_refl eq_refl)).
Defined.

(** X11. A 2xx upstream reply whose body is not JSON, answered to a request
    that does not ask for a stream, reaches the client as 500 with the
    parser's message as [details]; so does a non-2xx reply whose body cannot
    be read. *)
Theorem unreadable_body_is_500 (env : Env) (w : World) (req : ChatRequest)
    (response : Response) (e : string) :
  env_truthy (HF_TOKEN env) = true ->
  invalid_messages (messages req) = false ->
  fetch w HF_URL (fetch_options env (requestBody env req)) = Ok response ->
  (ok response = true /\ truthy (stream req) = false /\ json response = Throw e)
  \/ (ok response = false /\ text response = Throw e) ->
  run (chat_completions env w req)
  = Fetch HF_URL (fetch_options env (requestBody env req))
      :: server_error_trace e
  /\ statusCode (reply (run (chat_completions env w req))) = 500
  /\ sent (reply (run (chat_completions env w req)))
     = Some (JObj [ ("error", JStr "Error en el servidor");
                    ("details", JStr e) ]%string).
Proof.
  intros Htoken Hmessages Hfetch [(Hok & Hstream & Hjson)|(Hok & Htext)].
  - rewrite (document_trace env w req response) by assumption.
    rewrite Hjson. repeat split; reflexivity.
  - rewrite (failure_trace env w req response) by assumption.
    rewrite Htext. repeat split; reflexivity.
Qed.

(** An upstream that answers 200 with a body that is not JSON. *)
Lemma unreadable_body_is_500_witness :
  statusCode (reply (run (chat_completions configured
    (world_of (live_reply ["<html>"]%string Ended))
    (request_of hi_there JUndefined None)))) = 500.
Proof.
  exact (proj1 (proj2 (unreadable_body_is_500 configured
                  (world_of (live_reply ["<html>"]%string Ended))
                  (request_of hi_there JUndefined None)
                  (live_reply ["<html>"]%string Ended)
                  "invalid json response body" eq_refl eq_refl eq_refl
                  (or_introl (conj eq_refl (conj eq_refl eq_refl)))))).
Defined.

(** ** The shape of a simulated stream *)

Lemma writes_of_paced (ws : list Wire) : writes_of (paced ws) = ws.
Proof.
  induction ws as [|c [|c' ws] IH]; [reflexivity|reflexivity|].
  change (paced (c :: c' :: ws))
    with (Res_write c :: SetTimeout 80 :: paced (c' :: ws)).
  change (c :: writes_of (paced (c' :: ws)) = c :: c' :: ws).
  now rewrite IH.
Qed.

Lemma timers_of_paced (ws : list Wire) :
  timers_of (paced ws) = replicate (pred (length ws)) 80.
Proof.
  induction ws as [|c [|c' ws] IH]; [reflexivity|reflexivity|].
  change (paced (c :: c' :: ws))
    with (Res_write c :: SetTimeout 80 :: paced (c' :: ws)).
  change (80 :: timers_of (paced (c' :: ws))
          = 80 :: replicate (pred (length (c' :: ws))) 80).
  now rewrite IH.
Qed.

Lemma timers_of_app (t1 t2 : list Call) :
  timers_of (t1 ++ t2) = timers_of t1 ++ timers_of t2.
Proof. unfold timers_of. apply omap_app. Qed.

Lemma paced_open (ws : list Wire) : Forall open_call (paced ws).
Proof.
  induction ws as [|c [|c' ws] IH]; [constructor|repeat constructor|].
  change (paced (c :: c' :: ws))
    with (Res_write c :: SetTimeout 80 :: paced (c' :: ws)).
  constructor; [exact I|]. constructor; [exact I|exact IH].
Qed.

Lemma open_in_band (trace : list Call) :
  Forall open_call trace -> Forall in_band trace.
Proof.
  intros H. eapply Forall_impl; [exact H|].
  intros c; destruct c; simpl; auto.
Qed.

(** The word loop writes one well-formed chunk per word, with one 80 ms
    timer between two successive writes and none after the last. *)
Lemma emit_words_paced (w : World) (model : JsVal) (words : list string) :
  forall i st, exists chunks,
    emit_words w model i words st
    = (Ok tt, {| clock_reads := (clock_reads st + 2 * length words)%nat;
                 calls := calls st ++ paced (map SseData chunks) |})
    /\ length chunks = length words
    /\ Forall (well_formed_chunk model) chunks.
Proof.
  induction words as [|word rest IH]; intros i [n tr].
  - exists []. cbn. rewrite app_nil_r, Nat.add_0_r. repeat split. constructor.
  - destruct rest as [|word2 rest].
    + eexists [_]. cbn [emit_words]. unfold bind, date_now, call, ret. cbn.
      split; [f_equal; f_equal; lia|]. split; [reflexivity|].
      constructor; [|constructor].
      split; [reflexivity|]. split; [reflexivity|].
      eexists. split; reflexivity.
    + destruct (IH (S i)
                  {| clock_reads := S (S n);
                     calls := (tr ++ [Res_write (SseData
                       (chunk_object
                          ("simulated-" +:+ string_of_Z (Date_now w n)
                           +:+ "-" +:+ string_of_nat i)
                          (Date_now w (S n) / 1000) model
                          (JObj [("content"%string,
                                  JStr (if Nat.eqb i 0 then word
                                        else " " +:+ word))])
                          JNull))]) ++ [SetTimeout 80] |})
        as (chunks & Hrun & Hlen & Hall).
      destruct chunks as [|c chunks]; [discriminate|].
      eexists (_ :: c :: chunks).
      split; [|split].
      * change (emit_words w model i (word :: word2 :: rest)
                  {| clock_reads := n; calls := tr |})
          with ((let* t_id := date_now w in
                 let* t_created := date_now w in
                 call (Res_write (SseData
                   (chunk_object
                      ("simulated-" +:+ string_of_Z t_id +:+ "-"
                       +:+ string_of_nat i)
                      (t_created / 1000) model
                      (JObj [("content"%string,
                              JStr (if Nat.eqb i 0 then word
                                    else " " +:+ word))])
                      JNull))) >>
                 call (SetTimeout 80) >>
                 emit_words w model (S i) (word2 :: rest))
                  {| clock_reads := n; calls := tr |}).
        unfold bind at 1 2 3 4. unfold date_now, call.
        cbn [fst snd clock_reads calls].
        rewrite Hrun. cbn [clock_reads calls length].
        f_equal. f_equal; [lia|]. rewrite <- !List.app_assoc. reflexivity.
      * cbn [length] in *. now rewrite Hlen.
      * constructor; [|exact Hall].
        split; [reflexivity|]. split; [reflexivity|].
        eexists. split; reflexivity.
Qed.

(** The simulated branch with its fallback, chunk by chunk. *)
Lemma simulate_chunks (w : World) (model : JsVal) (response : Response)
    (st : State) :
  exists chunks st',
    try_catch (simulate w model response) (stream_fallback w model) st
    = (Ok tt, st')
    /\ calls st'
       = calls st ++ paced (map SseData chunks) ++ [Res_write DONE; Res_end]
    /\ Forall (well_formed_chunk model) chunks
    /\ length chunks
       = match answer response with
         | Ok words => length words
         | Throw _ => 1%nat
         end.
Proof.
  unfold try_catch, simulate. unfold bind at 1.
  rewrite answer_words_run.
  destruct (answer response) as [words|e].
  - destruct (emit_words_paced w model words 0 st)
      as (chunks & Hrun & Hlen & Hall).
    exists chunks. eexists.
    unfold bind. rewrite Hrun. unfold call. cbn [fst snd clock_reads calls].
    split; [reflexivity|]. cbn [calls].
    split; [now rewrite <- !List.app_assoc|]. now split.
  - eexists [_]. eexists.
    unfold stream_fallback, bind, date_now, call. cbn [fst snd clock_reads calls].
    split; [reflexivity|]. cbn [calls].
    split; [now rewrite <- !List.app_assoc|].
    split; [|reflexivity].
    constructor; [|constructor].
    split; [reflexivity|]. split; [reflexivity|].
    eexists. split; reflexivity.
Qed.

Lemma simulated_paced_trace (env : Env) (w : World) (req : ChatRequest)
    (response : Response) :
  env_truthy (HF_TOKEN env) = true ->
  invalid_messages (messages req) = false ->
  fetch w HF_URL (fetch_options env (requestBody env req)) = Ok response ->
  ok response = true ->
  truthy (stream req) = true ->
  is_live response = false ->
  exists chunks,
    run (chat_completions env w req)
    = (Fetch HF_URL (fetch_options env (requestBody env req)) :: stream_headers)
      ++ paced (map SseData chunks) ++ [Res_write DONE; Res_end]
    /\ Forall (well_formed_chunk (selectedModel env req)) chunks
    /\ length chunks
       = match answer response with
         | Ok words => length words
         | Throw _ => 1%nat
         end.
Proof.
  intros Htoken Hmessages Hfetch Hok Hstream Hlive.
  rewrite (chat_completions_responds env w req Htoken Hmessages response Hfetch).
  unfold respond. rewrite Hok, Hstream. cbn [negb].
  unfold streaming. rewrite Hlive.
  unfold try_catch at 1. rewrite !bind_call.
  cbn [clock_reads calls started].
  destruct (simulate_chunks w (selectedModel env req) response
              {| clock_reads := 0;
                 calls :=
                   ((([Fetch HF_URL (fetch_options env (requestBody env req))]
                      ++ [Res_setHeader "Content-Type"
                            "text/plain; charset=utf-8"])
                     ++ [Res_setHeader "Cache-Control" "no-cache"])
                    ++ [Res_setHeader "Connection" "keep-alive"])
                   ++ [Res_setHeader "Access-Control-Allow-Origin" "*"] |})
    as (chunks & st' & Hrun & Hcalls & Hrest).
  exists chunks. rewrite Hrun. cbn [snd]. rewrite Hcalls.
  split; [reflexivity|exact Hrest].
Qed.

(** The response after the calls of a simulated stream. *)
Lemma paced_reply (head : list Call) (ws : list Wire) :
  Forall open_call head -> writes_of head = [] ->
  reply (head ++ paced ws ++ [Res_write DONE; Res_end])
  = {| statusCode := 200; sent := None; written := ws ++ [DONE];
       ended := true |}.
Proof.
  intros Hhead Hnone.
  replace (head ++ paced ws ++ [Res_write DONE; Res_end])
    with ((head ++ paced ws ++ [Res_write DONE]) ++ [Res_end])
    by (rewrite <- !List.app_assoc; reflexivity).
  rewrite reply_open_app.
  - rewrite !writes_of_app, Hnone, writes_of_paced. reflexivity.
  - apply Forall_app. split; [exact Hhead|].
    apply Forall_app. split; [apply paced_open|repeat constructor].
Qed.

(** X12. Simulated streaming of an answer of n words writes n chunks and
    sets n-1 timers, each of 80 ms and each between two successive chunk
    writes; nothing is awaited after the terminal chunk, which is followed
    at once by the sentinel and the end of the response. *)
Theorem simulated_pacing (env : Env) (w : World) (req : ChatRequest)
    (response : Response) (words : list string) :
  env_truthy (HF_TOKEN env) = true ->
  invalid_messages (messages req) = false ->
  fetch w HF_URL (fetch_options env (requestBody env req)) = Ok response ->
  ok response = true ->
  truthy (stream req) = true ->
  is_live response = false ->
  answer response = Ok words ->
  exists chunks,
    run (chat_completions env w req)
    = (Fetch HF_URL (fetch_options env (requestBody env req)) :: stream_headers)
      ++ paced chunks ++ [Res_write DONE; Res_end]
    /\ length chunks = length words
    /\ timers_of (run (chat_completions env w req))
       = replicate (pred (length words)) 80
    /\ written (reply (run (chat_completions env w req))) = chunks ++ [DONE].
Proof.
  intros Htoken Hmessages Hfetch Hok Hstream Hlive Hanswer.
  destruct (simulated_paced_trace env w req response Htoken Hmessages Hfetch
              Hok Hstream Hlive) as (chunks & Htrace & _ & Hlen).
  rewrite Hanswer in Hlen.
  exists (map SseData chunks). rewrite Htrace.
  split; [reflexivity|]. split; [now rewrite length_map|].
  split.
  - rewrite !timers_of_app, timers_of_paced, length_map, Hlen.
    cbn. now rewrite app_nil_r.
  - rewrite paced_reply by (repeat constructor || reflexivity). reflexivity.
Qed.

(** The "Hello friend" answer: two chunks, one timer. *)
Lemma simulated_pacing_witness :
  timers_of (run (chat_completions configured
    (world_of (json_reply 200 "{}" hello_friend))
    (request_of hi_there (JBool true) None))) = [80].
Proof.
  destruct (simulated_pacing configured
              (world_of (json_reply 200 "{}" hello_friend))
              (request_of hi_there (JBool true) None)
              (json_reply 200 "{}" hello_friend) ["Hello"; "friend"]%string
              eq_refl eq_refl eq_refl eq_refl eq_refl eq_refl eq_refl)
    as (chunks & _ & _ & Htimers & _).
  exact Htimers.
Defined.

(** X13. For a request whose resolved model is a string (the model omitted,
    an alias, or a name that is no member of [Object.prototype]), every
    record written in simulated mode before the sentinel, the error chunk of
    the fallback included, is a completion chunk: its [object] is
    "chat.completion.chunk", its [model] is that string, and it holds one
    choice, of index 0. *)
Theorem simulated_chunks_well_formed (env : Env) (w : World) (req : ChatRequest)
    (response : Response) (name : string) :
  env_truthy (HF_TOKEN env) = true ->
  invalid_messages (messages req) = false ->
  fetch w HF_URL (fetch_options env (requestBody env req)) = Ok response ->
  ok response = true ->
  truthy (stream req) = true ->
  is_live response = false ->
  selectedModel env req = JStr name ->
  exists chunks,
    written (reply (run (chat_completions env w req)))
    = map SseData chunks
      ++ [ Raw ("data: [DONE]" +:+ String "010" (String "010" "")) ]
    /\ chunks <> []
    /\ Forall (fun chunk =>
                 field "object" chunk = JStr "chat.completion.chunk"
                 /\ field "model" chunk = JStr name
                 /\ exists choice,
                      field "choices" chunk = JArr [choice]
                      /\ field "index" choice = JNum 0)
         chunks.
Proof.
  intros Htoken Hmessages Hfetch Hok Hstream Hlive Hmodel.
  destruct (simulated_paced_trace env w req response Htoken Hmessages Hfetch
              Hok Hstream Hlive) as (chunks & Htrace & Hall & Hlen).
  exists chunks. rewrite Htrace.
  rewrite paced_reply by (repeat constructor || reflexivity).
  split; [reflexivity|]. split; [|rewrite Hmodel in Hall; exact Hall].
  intros ->. cbn in Hlen.
  pose proof (answer_words_run response {| clock_reads := 0; calls := [] |})
    as Hans.
  destruct (answer response) as [words|e]; [|discriminate].
  apply answer_words_nonempty in Hans. now destruct words.
Qed.

(** A request for the alias "hermes-3", answered by simulated streaming. *)
Lemma simulated_chunks_well_formed_witness :
  exists chunks,
    written (reply (run (chat_completions configured
      (world_of (json_reply 200 "{}" hello_friend))
      (request_of hi_there (JBool true) (Some "hermes-3"%string)))))
    = map SseData chunks
      ++ [ Raw ("data: [DONE]" +:+ String "010" (String "010" "")) ]
    /\ Forall (fun chunk =>
                 field "model" chunk
                 = JStr "NousResearch/Hermes-3-Llama-3.1-8B:fireworks-ai")
         chunks.
Proof.
  destruct (simulated_chunks_well_formed configured
              (world_of (json_reply 200 "{}" hello_friend))
              (request_of hi_there (JBool true) (Some "hermes-3"%string))
              (json_reply 200 "{}" hello_friend)
              "NousResearch/Hermes-3-Llama-3.1-8B:fireworks-ai"
              eq_refl eq_refl eq_refl eq_refl eq_refl eq_refl eq_refl)
    as (chunks & Hwritten & _ & Hall).
  exists chunks. split; [exact Hwritten|].
  eapply Forall_impl; [exact Hall|]. intros chunk (_ & Hmodel & _).
  exact Hmodel.
Defined.

(** ** How a response ends *)

Lemma live_reply_state (env : Env) (w : World) (req : ChatRequest)
    (response : Response) :
  env_truthy (HF_TOKEN env) = true ->
  invalid_messages (messages req) = false ->
  fetch w HF_URL (fetch_options env (requestBody env req)) = Ok response ->
  ok response = true ->
  truthy (stream req) = true ->
  is_live response = true ->
  reply (run (chat_completions env w req))
  = {| statusCode := 200; sent := None;
       written := map Raw (body_data response);
       ended := match body_ending response with
                | Pending => false
                | _ => true
                end |}.
Proof.
  intros Htoken Hmessages Hfetch Hok Hstream Hlive.
  rewrite (pass_through_trace env w req Htoken Hmessages response Hfetch Hok
             Hstream Hlive).
  rewrite List.app_assoc, reply_open_app.
  - rewrite writes_of_app, writes_of_relayed.
    destruct (body_ending response); reflexivity.
  - apply Forall_app. split; [repeat constructor|apply relayed_open].
Qed.

(** X14. Provided every promise the handler awaits settles (the one of
    [fetch], of [response.json()] and of [response.text()]; none has a
    timeout), the extended handler leaves the client's response open in one
    case only: a request relayed in pass-through mode whose upstream stream
    neither ends nor reports an error.  On every other path (body not parsed,
    validation failure, upstream failure, fault, document, simulated stream,
    relayed stream that ends or fails) the response is ended. *)
Theorem response_open_only_while_stream_pending (env : Env) (w : World)
    (body : Body) :
  ended (reply (run (post_chat_completions env w body))) = false
  <-> exists req response,
        body = Parsed req
        /\ env_truthy (HF_TOKEN env) = true
        /\ invalid_messages (messages req) = false
        /\ fetch w HF_URL (fetch_options env (requestBody env req)) = Ok response
        /\ ok response = true
        /\ truthy (stream req) = true
        /\ is_live response = true
        /\ body_ending response = Pending.
Proof.
  split.
  - destruct body as [|req]; [rewrite unparsed_trace; discriminate|].
    change (post_chat_completions env w (Parsed req))
      with (chat_completions env w req).
    destruct (env_truthy (HF_TOKEN env)) eqn:Htoken;
      [|rewrite chat_completions_parsed; unfold run, chat_guarded;
        rewrite Htoken; discriminate].
    destruct (invalid_messages (messages req)) eqn:Hmessages;
      [rewrite chat_completions_parsed; unfold run, chat_guarded;
       rewrite Htoken, Hmessages; discriminate|].
    destruct (fetch w HF_URL (fetch_options env (requestBody env req)))
      as [response|e] eqn:Hfetch;
      [|rewrite (fetch_rejected_trace env w req e) by assumption; discriminate].
    destruct (ok response) eqn:Hok;
      [|rewrite (failure_trace env w req response) by assumption;
        destruct (text response); discriminate].
    destruct (truthy (stream req)) eqn:Hstream;
      [|rewrite (document_trace env w req response) by assumption;
        destruct (json response); discriminate].
    destruct (is_live response) eqn:Hlive.
    + rewrite (live_reply_state env w req response) by assumption.
      cbn [ended]. destruct (body_ending response) eqn:Hending;
        try discriminate.
      intros _. now exists req, response.
    + destruct (simulated_paced_trace env w req response Htoken Hmessages
                  Hfetch Hok Hstream Hlive) as (chunks & Htrace & _).
      rewrite Htrace, paced_reply by (repeat constructor || reflexivity).
      discriminate.
  - intros (req & response & -> & Htoken & Hmessages & Hfetch & Hok & Hstream
            & Hlive & Hending).
    change (post_chat_completions env w (Parsed req))
      with (chat_completions env w req).
    rewrite (live_reply_state env w req response) by assumption.
    cbn [ended]. now rewrite Hending.
Qed.

(** X15. Once the handler has chosen to stream (a truthy [stream] and a 2xx
    upstream reply), nothing it does touches the status or sends a JSON
    body: the client sees status 200 and no JSON body, whether the reply is
    relayed or simulated and whether or not reading the answer throws; a
    fault is reported inside the stream. *)
Theorem streaming_stays_in_band (env : Env) (w : World) (req : ChatRequest)
    (response : Response) :
  env_truthy (HF_TOKEN env) = true ->
  invalid_messages (messages req) = false ->
  fetch w HF_URL (fetch_options env (requestBody env req)) = Ok response ->
  ok response = true ->
  truthy (stream req) = true ->
  Forall in_band (run (chat_completions env w req))
  /\ statusCode (reply (run (chat_completions env w req))) = 200
  /\ sent (reply (run (chat_completions env w req))) = None
  /\ exists rest,
       run (chat_completions env w req)
       = (Fetch HF_URL (fetch_options env (requestBody env req))
            :: stream_headers) ++ rest.
Proof.
  intros Htoken Hmessages Hfetch Hok Hstream.
  destruct (is_live response) eqn:Hlive.
  - rewrite (live_reply_state env w req response) by assumption.
    rewrite (pass_through_trace env w req Htoken Hmessages response Hfetch Hok
               Hstream Hlive).
    split; [|split; [reflexivity|split; [reflexivity|eexists; reflexivity]]].
    apply Forall_app. split; [repeat constructor|].
    apply Forall_app. split; [apply open_in_band, relayed_open|].
    destruct (body_ending response); repeat constructor.
  - destruct (simulated_paced_trace env w req response Htoken Hmessages
                Hfetch Hok Hstream Hlive) as (chunks & Htrace & _).
    rewrite Htrace, paced_reply by (repeat constructor || reflexivity).
    split; [|split; [reflexivity|split; [reflexivity|eexists; reflexivity]]].
    apply Forall_app. split; [repeat constructor|].
    apply Forall_app. split; [apply open_in_band, paced_open|].
    repeat constructor.
Qed.

(** A streaming request whose upstream document has no [choices]. *)
Lemma streaming_stays_in_band_witness :
  statusCode (reply (run (chat_completions configured
    (world_of (json_reply 200 "{}" (JObj [])))
    (request_of hi_there (JBool true) None)))) = 200
  /\ sent (reply (run (chat_completions configured
       (world_of (json_reply 200 "{}" (JObj [])))
       (request_of hi_there (JBool true) None)))) = None.
Proof.
  destruct (streaming_stays_in_band configured
              (world_of (json_reply 200 "{}" (JObj [])))
              (request_of hi_there (JBool true) None)
              (json_reply 200 "{}" (JObj []))
              eq_refl eq_refl eq_refl eq_refl eq_refl)
    as (_ & Hstatus & Hsent & _).
  split; [exact Hstatus|exact Hsent].
Defined.

(** ** Reading the answer: the edge cases *)

(** X16. When the upstream document has a [choices] array that is empty, or
    whose first choice has no [message], reading the answer does not throw:
    the placeholder "Sin respuesta" is segmented instead, and the client of
    a simulated stream reassembles "Sin". *)
Theorem placeholder_when_no_content (env : Env) (w : World) (req : ChatRequest)
    (response : Response) (fields : list (string * JsVal))
    (choices : list JsVal) :
  env_truthy (HF_TOKEN env) = true ->
  invalid_messages (messages req) = false ->
  fetch w HF_URL (fetch_options env (requestBody env req)) = Ok response ->
  ok response = true ->
  truthy (stream req) = true ->
  is_live response = false ->
  json response = Ok (JObj fields) ->
  own_field "choices" fields = Some (JArr choices) ->
  choices = []
  \/ (exists first rest,
        choices = JObj first :: rest /\ own_field "message" first = None) ->
  answer response = Ok ["Sin"; "respuesta"]%string
  /\ reassemble (written (reply (run (chat_completions env w req))))
     = "Sin"%string.
Proof.
  intros Htoken Hmessages Hfetch Hok Hstream Hlive Hjson Hchoices Hcase.
  assert (answer response = Ok ["Sin"; "respuesta"]%string) as Hanswer.
  { unfold answer, answer_words, bind, await. rewrite Hjson.
    cbn [get ret]. rewrite Hchoices.
    destruct Hcase as [->|(first & rest & -> & Hmessage)].
    - reflexivity.
    - cbn [get_0 ret get_opt get]. rewrite Hmessage. reflexivity. }
  split; [exact Hanswer|].
  rewrite (simulated_reassembly env w req Htoken Hmessages response Hfetch Hok
             Hstream ["Sin"; "respuesta"]%string Hlive Hanswer).
  reflexivity.
Qed.

(** An upstream document with an empty [choices] array. *)
Lemma placeholder_when_no_content_witness :
  reassemble (written (reply (run (chat_completions configured
    (world_of (json_reply 200 "{}" (JObj [("choices"%string, JArr [])])))
    (request_of hi_there (JBool true) None)))))
  = "Sin"%string.
Proof.
  exact (proj2 (placeholder_when_no_content configured
                  (world_of (json_reply 200 "{}"
                               (JObj [("choices"%string, JArr [])])))
                  (request_of hi_there (JBool true) None)
                  (json_reply 200 "{}" (JObj [("choices"%string, JArr [])]))
                  [("choices"%string, JArr [])] []
                  eq_refl eq_refl eq_refl eq_refl eq_refl eq_refl eq_refl
                  eq_refl (or_introl eq_refl))).
Defined.

Lemma error_stream (env : Env) (w : World) (req : ChatRequest)
    (response : Response) (e : string) :
  env_truthy (HF_TOKEN env) = true ->
  invalid_messages (messages req) = false ->
  fetch w HF_URL (fetch_options env (requestBody env req)) = Ok response ->
  ok response = true ->
  truthy (stream req) = true ->
  is_live response = false ->
  answer response = Throw e ->
  exists chunk,
    written (reply (run (chat_completions env w req))) = [chunk; DONE]
    /\ finish_reason chunk = Some "error"%string
    /\ delta_content chunk = Some ("Error: " +:+ e).
Proof.
  intros Htoken Hmessages Hfetch Hok Hstream Hlive Hanswer.
  destruct (simulated_trace env w req Htoken Hmessages response Hfetch Hok
              Hstream Hlive)
    as (before & last & Htrace & Hpace & _ & Hcase).
  rewrite Hanswer in Hcase. destruct Hcase as (-> & Hfin & Hcontent).
  destruct (simulated_reply
              (Fetch HF_URL (fetch_options env (requestBody env req))
                 :: stream_headers) [] last)
    as [Hwritten _]; [repeat constructor|exact Hpace|reflexivity|].
  exists last. rewrite Htrace, Hwritten. repeat split; assumption.
Qed.

(** X17. When the upstream document is an object without [choices], a
    streaming request is answered by a stream of exactly the error chunk and
    the sentinel: the chunk has [finish_reason] "error" and carries the
    TypeError of reading index 0 of [undefined]. *)
Theorem missing_choices_error_chunk (env : Env) (w : World) (req : ChatRequest)
    (response : Response) (fields : list (string * JsVal)) :
  env_truthy (HF_TOKEN env) = true ->
  invalid_messages (messages req) = false ->
  fetch w HF_URL (fetch_options env (requestBody env req)) = Ok response ->
  ok response = true ->
  truthy (stream req) = true ->
  is_live response = false ->
  json response = Ok (JObj fields) ->
  own_field "choices" fields = None ->
  exists chunk,
    written (reply (run (chat_completions env w req))) = [chunk; DONE]
    /\ finish_reason chunk = Some "error"%string
    /\ delta_content chunk
       = Some "Error: Cannot read properties of undefined (reading '0')"%string.
Proof.
  intros Htoken Hmessages Hfetch Hok Hstream Hlive Hjson Hchoices.
  apply (error_stream env w req response
           "Cannot read properties of undefined (reading '0')");
    try assumption.
  unfold answer, answer_words, bind, await. rewrite Hjson.
  cbn [get ret]. rewrite Hchoices. reflexivity.
Qed.

(** The upstream answers a streaming request with [{}]. *)
Lemma missing_choices_error_chunk_witness :
  exists chunk,
    written (reply (run (chat_completions configured
      (world_of (json_reply 200 "{}" (JObj [])))
      (request_of hi_there (JBool true) None)))) = [chunk; DONE]
    /\ delta_content chunk
       = Some "Error: Cannot read properties of undefined (reading '0')"%string.
Proof.
  destruct (missing_choices_error_chunk configured
              (world_of (json_reply 200 "{}" (JObj [])))
              (request_of hi_there (JBool true) None)
              (json_reply 200 "{}" (JObj [])) []
              eq_refl eq_refl eq_refl eq_refl eq_refl eq_refl eq_refl eq_refl)
    as (chunk & Hwritten & _ & Hcontent).
  exists chunk. split; [exact Hwritten|exact Hcontent].
Defined.

(** X18. When the upstream document, whatever else it holds, has a
    [choices] array whose first element is an object with a [message] object
    whose [content] is truthy but not a string (a number, [true], an array,
    an object), segmenting it throws and a streaming request is answered by
    the error chunk "Error: content.split is not a function" followed by the
    sentinel. *)
Theorem non_string_content_error_chunk (env : Env) (w : World)
    (req : ChatRequest) (response : Response)
    (document first message : list (string * JsVal)) (others : list JsVal)
    (content : JsVal) :
  env_truthy (HF_TOKEN env) = true ->
  invalid_messages (messages req) = false ->
  fetch w HF_URL (fetch_options env (requestBody env req)) = Ok response ->
  ok response = true ->
  truthy (stream req) = true ->
  is_live response = false ->
  json response = Ok (JObj document) ->
  own_field "choices" document = Some (JArr (JObj first :: others)) ->
  own_field "message" first = Some (JObj message) ->
  own_field "content" message = Some content ->
  truthy content = true ->
  (forall s, content <> JStr s) ->
  exists chunk,
    written (reply (run (chat_completions env w req)))
    = [ chunk; Raw ("data: [DONE]" +:+ String "010" (String "010" "")) ]
    /\ finish_reason chunk = Some "error"%string
    /\ delta_content chunk
       = Some "Error: content.split is not a function"%string.
Proof.
  intros Htoken Hmessages Hfetch Hok Hstream Hlive Hjson Hchoices Hmessage
    Hcontent Htruthy Hnot.
  apply (error_stream env w req response "content.split is not a function");
    try assumption.
  unfold answer, answer_words, bind, await. rewrite Hjson.
  cbn [get ret]. rewrite Hchoices. cbn [get_0 get_opt get ret].
  rewrite Hmessage. cbn [get_opt get ret]. rewrite Hcontent.
  unfold js_or. rewrite Htruthy.
  destruct content; try reflexivity; try discriminate.
  now destruct (Hnot s).
Qed.

(** The upstream's document has an [id] besides its [choices], the first
    choice an [index] and a [finish_reason], the message a [role], and the
    content is the number 42. *)
Lemma non_string_content_error_chunk_witness :
  exists chunk,
    written (reply (run (chat_completions configured
      (world_of (json_reply 200 "{}"
         (JObj [ ("id", JStr "cmpl-1");
                 ("choices",
                  JArr [ JObj [ ("index", JNum 0);
                                ("message",
                                 JObj [ ("role", JStr "assistant");
                                        ("content", JNum 42) ]);
                                ("finish_reason", JStr "stop") ] ]) ]%string)))
      (request_of hi_there (JBool true) None))))
    = [ chunk; Raw ("data: [DONE]" +:+ String "010" (String "010" "")) ]
    /\ delta_content chunk
       = Some "Error: content.split is not a function"%string.
Proof.
  destruct (non_string_content_error_chunk configured
              (world_of (json_reply 200 "{}"
                 (JObj [ ("id", JStr "cmpl-1");
                         ("choices",
                          JArr [ JObj [ ("index", JNum 0);
                                        ("message",
                                         JObj [ ("role", JStr "assistant");
                                                ("content", JNum 42) ]);
                                        ("finish_reason", JStr "stop") ] ])
                       ]%string)))
              (request_of hi_there (JBool true) None)
              (json_reply 200 "{}"
                 (JObj [ ("id", JStr "cmpl-1");
                         ("choices",
                          JArr [ JObj [ ("index", JNum 0);
                                        ("message",
                                         JObj [ ("role", JStr "assistant");
                                                ("content", JNum 42) ]);
                                        ("finish_reason", JStr "stop") ] ])
                       ]%string))
              [ ("id", JStr "cmpl-1");
                ("choices",
                 JArr [ JObj [ ("index", JNum 0);
                               ("message",
                                JObj [ ("role", JStr "assistant");
                                       ("content", JNum 42) ]);
                               ("finish_reason", JStr "stop") ] ]) ]%string
              [ ("index", JNum 0);
                ("message",
                 JObj [ ("role", JStr "assistant"); ("content", JNum 42) ]);
                ("finish_reason", JStr "stop") ]%string
              [ ("role", JStr "assistant"); ("content", JNum 42) ]%string
              [] (JNum 42)
              eq_refl eq_refl eq_refl eq_refl eq_refl eq_refl eq_refl eq_refl
              eq_refl eq_refl eq_refl ltac:(discriminate))
    as (chunk & Hwritten & _ & Hcontent).
  exists chunk. split; [exact Hwritten|exact Hcontent].
Defined.

(** ** [createStreamResponse] *)

Lemma stream_records_spec (env : Env) (w : World) (chunks : list string) :
  chunks <> [] ->
  forall index st, exists contents last,
    stream_records env w index chunks st
    = (Ok (contents ++ [last]),
       {| clock_reads := (clock_reads st + 2 * length chunks)%nat;
          calls := calls st |})
    /\ length contents = pred (length chunks)
    /\ Forall (fun d => finish_reason d = None) contents
    /\ finish_reason last = Some "stop"%string
    /\ delta last = JObj []
    /\ reassemble contents +:+ List.last chunks ""%string = join " " chunks.
Proof.
  induction chunks as [|chunk rest IH]; intros Hne index [n tr];
    [contradiction|].
  destruct rest as [|chunk2 rest].
  - eexists [], _. cbn [stream_records]. unfold bind, date_now, ret. cbn.
    split; [f_equal; f_equal; lia|]. repeat split. constructor.
  - destruct (IH ltac:(discriminate) (S index)
                {| clock_reads := S (S n); calls := tr |})
      as (contents & last & Hrun & Hlen & Hall & Hfin & Hdelta & Hre).
    eexists (_ :: contents), last.
    split; [|split; [|split; [|split; [|split]]]].
    + change (stream_records env w index (chunk :: chunk2 :: rest)
                {| clock_reads := n; calls := tr |})
        with ((let* t_id := date_now w in
               let* t_created := date_now w in
               let* more := stream_records env w (S index) (chunk2 :: rest) in
               ret (SseData
                      (chunk_object
                         ("stream-" +:+ string_of_Z t_id +:+ "-"
                          +:+ string_of_nat index)
                         (t_created / 1000) (JStr (DEFAULT_MODEL env))
                         (JObj [("content"%string, JStr (chunk +:+ " "))])
                         JNull) :: more))
                {| clock_reads := n; calls := tr |}).
      unfold bind at 1 2 3. unfold date_now. cbn [fst snd clock_reads calls].
      rewrite Hrun. unfold ret. cbn [clock_reads calls length].
      f_equal. f_equal. lia.
    + cbn [length] in *. now rewrite Hlen.
    + constructor; [reflexivity|exact Hall].
    + exact Hfin.
    + exact Hdelta.
    + erewrite reassemble_cons by reflexivity.
      change (List.last (chunk :: chunk2 :: rest) ""%string)
        with (List.last (chunk2 :: rest) ""%string).
      rewrite append_assoc, Hre, append_assoc. reflexivity.
Qed.

(** X19. [createStreamResponse(content)] returns one record per
    space-separated piece of [content] and touches nothing else; only the
    last record is terminal ("stop", empty delta), and the content deltas of
    the others, each a piece followed by a space, spell [content] up to its
    last piece, which no record carries. *)
Theorem createStreamResponse_spec (env : Env) (w : World) (content : string)
    (st : State) :
  exists contents last st',
    createStreamResponse env w content st = (Ok (contents ++ [last]), st')
    /\ calls st' = calls st
    /\ length (contents ++ [last]) = length (split " " content)
    /\ Forall (fun d => terminal d = false) contents
    /\ finish_reason last = Some "stop"%string
    /\ delta last = JObj []
    /\ reassemble (contents ++ [last])
         +:+ List.last (split " " content) ""%string
       = content.
Proof.
  unfold createStreamResponse.
  destruct (stream_records_spec env w (split " " content)
              (split_nonempty " " content) 0 st)
    as (contents & last & Hrun & Hlen & Hall & Hfin & Hdelta & Hre).
  exists contents, last. eexists. split; [exact Hrun|].
  split; [reflexivity|].
  split.
  { rewrite length_app, Hlen. cbn.
    pose proof (split_nonempty " " content).
    destruct (split " " content); [contradiction|cbn; lia]. }
  split.
  { eapply Forall_impl; [exact Hall|]. intros d Hd. unfold terminal.
    now rewrite Hd. }
  split; [exact Hfin|]. split; [exact Hdelta|].
  rewrite reassemble_snoc_empty by (unfold delta_content; now rewrite Hdelta).
  rewrite Hre. apply (join_split " ").
Qed.

(** ** The handler of [server.js] *)

Lemma basic_trace (env : Env) (w : World) (req : ChatRequest) :
  env_truthy (HF_TOKEN env) = true ->
  run (basic_chat_completions env w req)
  = Fetch HF_URL (fetch_options env (basic_body env req))
      :: match fetch w HF_URL (fetch_options env (basic_body env req)) with
         | Throw e => server_error_trace e
         | Ok response =>
             if ok response then
               match json response with
               | Ok data => [Res_json data]
               | Throw e => server_error_trace e
               end
             else
               match text response with
               | Ok raw => [ Res_status (status response);
                             Res_json (failure_body (status response) raw) ]
               | Throw e => server_error_trace e
               end
         end.
Proof.
  intros Htoken. rewrite basic_chat_completions_parsed. unfold run, basic_guarded. rewrite Htoken.
  cbn [negb]. unfold do_fetch, upstream_failure.
  unfold try_catch, bind, call, await.
  destruct (fetch w HF_URL (fetch_options env (basic_body env req)))
    as [response|e]; [|reflexivity].
  destruct (ok response); cbn [negb];
    [destruct (json response)|destruct (text response)]; reflexivity.
Qed.

(** X20. Provided every promise the handler awaits settles (none has a
    timeout), the handler of [server.js] hands exactly one payload to
    [res.json] and ends the response, writing no stream data even when
    [stream] is true; the client receives that payload as the body unless
    the status is one that carries no body (an upstream 304); the handler
    makes one outbound call when a credential is configured and the body was
    parsed, whatever [messages] is, and none otherwise. *)
Theorem basic_always_one_json_reply (env : Env) (w : World) (body : Body) :
  (exists payload,
     json_calls (run (basic_post_chat_completions env w body)) = [payload]
     /\ sent (reply (run (basic_post_chat_completions env w body)))
        = if bodyless
               (statusCode (reply (run (basic_post_chat_completions env w body))))
          then None else Some payload)
  /\ ended (reply (run (basic_post_chat_completions env w body))) = true
  /\ written (reply (run (basic_post_chat_completions env w body))) = []
  /\ writes_of (run (basic_post_chat_completions env w body)) = []
  /\ network_calls (run (basic_post_chat_completions env w body))
     = match body with
       | Parsed req =>
           if env_truthy (HF_TOKEN env)
           then [ (HF_URL, fetch_options env (basic_body env req)) ]
           else []
       | Unparsed => []
       end.
Proof.
  destruct body as [|req].
  { rewrite basic_unparsed_trace. repeat split. eexists. split; reflexivity. }
  change (basic_post_chat_completions env w (Parsed req))
    with (basic_chat_completions env w req).
  destruct (env_truthy (HF_TOKEN env)) eqn:Htoken.
  - rewrite (basic_trace env w req Htoken).
    destruct (fetch w HF_URL (fetch_options env (basic_body env req)))
      as [response|e];
      [|repeat split; eexists; split; reflexivity].
    destruct (ok response);
      [destruct (json response)|destruct (text response)];
      repeat split; eexists; split; reflexivity.
  - rewrite basic_chat_completions_parsed. unfold run, basic_guarded.
    rewrite Htoken. repeat split; eexists; split; reflexivity.
Qed.

(** X21. In [server.js] too, when the upstream call returns a final status
    S outside the 2xx range (so S is 300 or more), with raw body B, the
    handler answers with status S and hands
    [{error: "Error desde Hugging Face", details: B, status: S}] to
    [res.json]; the client receives that body unless S is 304, with which it
    receives none. *)
Theorem basic_upstream_failure_forwarded (env : Env) (w : World)
    (req : ChatRequest) (response : Response) (raw : string) :
  env_truthy (HF_TOKEN env) = true ->
  fetch w HF_URL (fetch_options env (basic_body env req)) = Ok response ->
  ok response = false ->
  200 <= status response <= 999 ->
  text response = Ok raw ->
  run (basic_chat_completions env w req)
  = [ Fetch HF_URL (fetch_options env (basic_body env req));
      Res_status (status response);
      Res_json (JObj [ ("error", JStr "Error desde Hugging Face");
                       ("details", JStr raw);
                       ("status", JNum (inject_Z (status response))) ]%string) ]
  /\ statusCode (reply (run (basic_chat_completions env w req)))
     = status response
  /\ sent (reply (run (basic_chat_completions env w req)))
     = (if status response =? 304 then None
        else Some (JObj [ ("error", JStr "Error desde Hugging Face");
                          ("details", JStr raw);
                          ("status", JNum (inject_Z (status response))) ]%string)).
Proof.
  intros Htoken Hfetch Hok Hrange Htext.
  rewrite (basic_trace env w req Htoken), Hfetch, Hok, Htext.
  split; [reflexivity|]. split; [reflexivity|].
  cbn. rewrite (bodyless_failure _ Hok).
  destruct (Z.leb_spec (status response) 199); [lia|].
  now rewrite andb_false_r.
Qed.

(** The upstream answers 503 to a request that has no [messages]. *)
Lemma basic_upstream_failure_forwarded_witness :
  statusCode (reply (run (basic_chat_completions configured
    (world_of (json_reply 503 "overloaded" JNull))
    (request_of JUndefined JUndefined None)))) = 503
  /\ sent (reply (run (basic_chat_completions configured
       (world_of (json_reply 503 "overloaded" JNull))
       (request_of JUndefined JUndefined None))))
     = Some (JObj [ ("error", JStr "Error desde Hugging Face");
                    ("details", JStr "overloaded");
                    ("status", JNum 503) ]%string).
Proof.
  destruct (basic_upstream_failure_forwarded configured
              (world_of (json_reply 503 "overloaded" JNull))
              (request_of JUndefined JUndefined None)
              (json_reply 503 "overloaded" JNull) "overloaded"
              eq_refl eq_refl eq_refl ltac:(split; discriminate) eq_refl)
    as (_ & Hstatus & Hsent).
  split; [exact Hstatus|exact Hsent].
Defined.

(** X22. [server.js] forwards [stream] upstream but never relays a stream:
    when the upstream's 2xx body is not JSON, as an event stream is not, or
    when the call itself fails, the client is answered 500 with the fault's
    message as [details]. *)
Theorem basic_fault_is_500 (env : Env) (w : World) (req : ChatRequest)
    (e : string) :
  env_truthy (HF_TOKEN env) = true ->
  fetch w HF_URL (fetch_options env (basic_body env req)) = Throw e
  \/ (exists response,
        fetch w HF_URL (fetch_options env (basic_body env req)) = Ok response
        /\ ok response = true /\ json response = Throw e) ->
  run (basic_chat_completions env w req)
  = Fetch HF_URL (fetch_options env (basic_body env req))
      :: server_error_trace e
  /\ statusCode (reply (run (basic_chat_completions env w req))) = 500
  /\ basic_body env req !! "stream"%string
     = Some (js_or (stream req) (JBool false)).
Proof.
  intros Htoken Hcase. rewrite (basic_trace env w req Htoken).
  split; [|split; [|vm_compute; reflexivity]].
  - destruct Hcase as [-> | (response & -> & -> & ->)]; reflexivity.
  - destruct Hcase as [-> | (response & -> & -> & ->)]; reflexivity.
Qed.

(** A streaming request answered by an event stream. *)
Lemma basic_fault_is_500_witness :
  statusCode (reply (run (basic_chat_completions configured
    (world_of (live_reply ["data: {}"]%string Ended))
    (request_of hi_there (JBool true) None)))) = 500.
Proof.
  exact (proj1 (proj2 (basic_fault_is_500 configured
                  (world_of (live_reply ["data: {}"]%string Ended))
                  (request_of hi_there (JBool true) None)
                  "invalid json response body" eq_refl
                  (or_intror
                     (ex_intro _ (live_reply ["data: {}"]%string Ended)
                        (conj eq_refl (conj eq_refl eq_refl))))))).
Defined.

(** ** Introspection *)

Lemma basic_calls_by_credential (env : Env) (w : World)
    (req : ChatRequest) :
  network_calls (run (basic_chat_completions env w req))
  = (if env_truthy (HF_TOKEN env)
     then [ (HF_URL, fetch_options env (basic_body env req)) ]
     else [])
  /\ (env_truthy (HF_TOKEN env) = false ->
      statusCode (reply (run (basic_chat_completions env w req))) = 401).
Proof.
  destruct (env_truthy (HF_TOKEN env)) eqn:Htoken.
  - split; [|discriminate]. rewrite (basic_trace env w req Htoken).
    destruct (fetch w HF_URL (fetch_options env (basic_body env req)))
      as [response|e]; [|reflexivity].
    destruct (ok response);
      [destruct (json response)|destruct (text response)]; reflexivity.
  - rewrite basic_chat_completions_parsed. unfold run, basic_guarded. rewrite Htoken. split; reflexivity.
Qed.

(** X23. [GET /health] of [server.js] tells the truth about the chat
    endpoint on requests whose body was parsed: [hasToken] is true exactly
    when the chat handler makes the outbound call for such a request and
    false exactly when it answers it 401 without calling, and [model] is the
    model of that call's payload.  A request whose body was not parsed is
    answered 500 without a call, whatever [hasToken] is. *)
Theorem health_reflects_handler (env : Env) (w : World) (req : ChatRequest) :
  exists report,
    run (basic_health env) = [Res_json report]
    /\ field "status" report = JStr "ok"
    /\ (field "hasToken" report = JBool true
        <-> network_calls (run (basic_post_chat_completions env w (Parsed req)))
            = [ (HF_URL, fetch_options env (basic_body env req)) ])
    /\ (field "hasToken" report = JBool false
        <-> statusCode
              (reply (run (basic_post_chat_completions env w (Parsed req))))
            = 401
            /\ network_calls
                 (run (basic_post_chat_completions env w (Parsed req))) = [])
    /\ (statusCode (reply (run (basic_post_chat_completions env w Unparsed)))
        = 500
        /\ network_calls (run (basic_post_chat_completions env w Unparsed)) = [])
    /\ basic_body env req !! "model"%string = Some (field "model" report).
Proof.
  eexists. split; [reflexivity|]. split; [reflexivity|].
  change (basic_post_chat_completions env w (Parsed req))
    with (basic_chat_completions env w req).
  destruct (basic_calls_by_credential env w req) as [Hcalls H401].
  change (field "hasToken"
            (JObj [ ("status", JStr "ok");
                    ("model", JStr (DEFAULT_MODEL env));
                    ("hasToken", JBool (env_truthy (HF_TOKEN env))) ]%string))
    with (JBool (env_truthy (HF_TOKEN env))).
  rewrite Hcalls, basic_unparsed_trace.
  destruct (env_truthy (HF_TOKEN env)) eqn:Htoken.
  - split; [split; reflexivity|].
    split; [split; [discriminate|intros [_ H]; discriminate]|].
    split; [split; reflexivity|].
    vm_compute; reflexivity.
  - split; [split; discriminate|].
    split; [split; [intros _; split; [apply H401; reflexivity|reflexivity]
                   |reflexivity]|].
    split; [split; reflexivity|].
    vm_compute; reflexivity.
Qed.

(** X24. [GET /stats] reports the configuration the chat endpoint uses: its
    [defaultModel] is the outbound model of every request that names none,
    and looking a name up in its [modelsAvailable] gives a string exactly
    when the name is a key of the alias table, the string being the table's
    value. *)
Theorem stats_reflects_resolution (env : Env) :
  exists report,
    run (stats env) = [Res_json report]
    /\ (forall req, model req = None ->
          selectedModel env req = field "defaultModel" report)
    /\ (forall alias id,
          field alias (field "modelsAvailable" report) = JStr id
          <-> AVAILABLE_MODELS !! alias = Some id).
Proof.
  eexists. split; [reflexivity|]. split.
  - intros req Hmodel. now rewrite (selectedModel_default env req Hmodel).
  - intros alias id.
    change (field "modelsAvailable" _)
      with (JObj (map (fun kv : string * string => (kv.1, JStr kv.2))
                      AVAILABLE_MODELS_entries)).
    split.
    + unfold field, AVAILABLE_MODELS_entries. cbn [map own_field fst snd].
      repeat (match goal with
              | |- context [String.eqb alias ?k] =>
                  destruct (String.eqb_spec alias k) as [->|_];
                  [intros [= <-]; vm_compute; reflexivity|]
              end).
      discriminate.
    + intros H. apply AVAILABLE_MODELS_keys in H.
      repeat (apply elem_of_cons in H as [[= -> ->]|H]; [reflexivity|]).
      now apply elem_of_nil in H.
Qed.

(** ** Segmentation *)

(** X25. Segmenting a text at the spaces loses nothing and leaves no space
    inside a word: there is always at least one word, no word contains a
    space, and the words joined by single spaces are the text again. *)
Theorem segmentation_round_trip (text : string) :
  split " " text <> []
  /\ Forall (fun word => includes word " " = false) (split " " text)
  /\ join " " (split " " text) = text.
Proof.
  split; [apply split_nonempty|]. split; [|apply (join_split " ")].
  induction text as [|c rest IH]; [repeat constructor|].
  cbn [split]. destruct (Ascii.eqb_spec c " ") as [->|Hne].
  - constructor; [reflexivity|exact IH].
  - pose proof (split_nonempty " " rest) as Hn.
    destruct (split " " rest) as [|word words]; [contradiction|].
    inversion IH as [|? ? Hword Hwords]; subst.
    constructor; [|exact Hwords].
    cbn [includes String.prefix]. rewrite Hword.
    destruct (ascii_dec " " c) as [<-|_]; [contradiction|reflexivity].
Qed.
